(** * otp_textlocal: the Textlocal SMS one-time-password device

    A shallow embedding of [models.py] and [conf.py] of the otp_textlocal
    Django application, together with the parts of its dependencies that the
    device calls: [django_otp.oath] (RFC 4226 / RFC 6238 one-time passwords
    over HMAC-SHA1), the builtin [int] and [str.format], and the observable
    behaviour of [requests.post].

    Python integers are [Z], byte strings are lists of [Z] in [0, 256),
    text strings are [string] read as sequences of code points below 256.
    Exceptions are values of [exn]; every fallible operation returns a
    [result]. *)

From Stdlib Require Import ZArith Lia List Ascii String Bool.
From stdpp Require Import base option list gmap strings.

Local Open Scope string_scope.
Local Open Scope Z_scope.

(** ** Values *)

(** The Python values that reach the device: setting values and the
    candidate handed to [verify_token]. *)
Inductive pyval : Type :=
  | PyNone
  | PyBool (b : bool)
  | PyInt (n : Z)
  | PyStr (s : string).

(** The value produced by [response.json()]. *)
#[local] Set Warnings "-register-all".
Inductive Json : Type :=
  | JNull
  | JBool (b : bool)
  | JNum (n : Z)
  | JStr (s : string)
  | JArr (items : list Json)
  | JObj (fields : gmap string Json).
#[local] Set Warnings "register-all".

(** ** Exceptions and results *)

Inductive exn : Type :=
  | ValueError
  | TypeError
  | AttributeError (name : string)
  | KeyError (name : string)
  | IndexError
  | BinasciiError
  | StructError
  | ImproperlyConfigured (msg : string)
  | ConnectionError
  | HTTPError (status : Z)
  | DeliveryException (body : Json)
  | DatabaseRangeError
  | OutsideFragment.

Inductive result (A : Type) : Type :=
  | Ok (a : A)
  | Raise (e : exn).
Arguments Ok {A} a.
Arguments Raise {A} e.

Definition is_ok {A} (r : result A) : bool :=
  match r with Ok _ => true | Raise _ => false end.

(** ** SHA-1 on 32-bit words (hashlib.sha1) *)

Module SHA1.

Definition mask32 : Z := 0xFFFFFFFF.

Definition add32 (a b : Z) : Z := Z.land (a + b) mask32.

Definition rotl32 (n x : Z) : Z :=
  Z.land (Z.lor (Z.shiftl x n) (Z.shiftr x (32 - n))) mask32.

Definition not32 (x : Z) : Z := Z.lxor x mask32.

(** [be_bytes n v]: the [n] low bytes of [v], most significant first. *)
Definition be_bytes (n : nat) (v : Z) : list Z :=
  map (fun i => Z.land (Z.shiftr v (8 * Z.of_nat i)) 255) (rev (seq 0 n)).

Definition be_word (bs : list Z) : Z :=
  fold_left (fun acc b => Z.lor (Z.shiftl acc 8) b) bs 0.

Definition pad (msg : list Z) : list Z :=
  let l := Z.of_nat (length msg) in
  msg ++ [128] ++ repeat 0 (Z.to_nat ((55 - l) mod 64)) ++ be_bytes 8 (8 * l).

Fixpoint chunks (size n : nat) (l : list Z) : list (list Z) :=
  match n with
  | O => []
  | S n' => take size l :: chunks size n' (drop size l)
  end.

Definition blocks (m : list Z) : list (list Z) :=
  chunks 64 (length m / 64)%nat m.

Definition block_words (b : list Z) : list Z :=
  map be_word (chunks 4 16 b).

Definition f_round (i : nat) (b c d : Z) : Z :=
  if (i <? 20)%nat then Z.lor (Z.land b c) (Z.land (not32 b) d)
  else if (i <? 40)%nat then Z.lxor (Z.lxor b c) d
  else if (i <? 60)%nat then
    Z.lor (Z.lor (Z.land b c) (Z.land b d)) (Z.land c d)
  else Z.lxor (Z.lxor b c) d.

Definition k_round (i : nat) : Z :=
  if (i <? 20)%nat then 0x5A827999
  else if (i <? 40)%nat then 0x6ED9EBA1
  else if (i <? 60)%nat then 0x8F1BBCDC
  else 0xCA62C1D6.

Record regs : Type := Regs { ra : Z; rb : Z; rc : Z; rd : Z; re : Z }.

(** The message schedule is kept as a window of the sixteen most recent
    words; the head is the word consumed by the current round. *)
Definition next_word (w : list Z) : Z :=
  rotl32 1 (Z.lxor (Z.lxor (Z.lxor (nth 13 w 0) (nth 8 w 0)) (nth 2 w 0))
                   (nth 0 w 0)).

Fixpoint rounds (n i : nat) (w : list Z) (r : regs) : regs :=
  match n with
  | O => r
  | S n' =>
      let t :=
        add32 (add32 (add32 (add32 (rotl32 5 (ra r))
                                   (f_round i (rb r) (rc r) (rd r)))
                            (re r))
                     (k_round i))
              (nth 0 w 0) in
      rounds n' (S i) (tl w ++ [next_word w])
             (Regs t (ra r) (rotl32 30 (rb r)) (rc r) (rd r))
  end.

Definition compress (h : regs) (b : list Z) : regs :=
  let r := rounds 80 0 (block_words b) h in
  Regs (add32 (ra h) (ra r)) (add32 (rb h) (rb r)) (add32 (rc h) (rc r))
       (add32 (rd h) (rd r)) (add32 (re h) (re r)).

Definition init : regs :=
  Regs 0x67452301 0xEFCDAB89 0x98BADCFE 0x10325476 0xC3D2E1F0.

Definition digest (msg : list Z) : list Z :=
  let h := fold_left compress (blocks (pad msg)) init in
  be_bytes 4 (ra h) ++ be_bytes 4 (rb h) ++ be_bytes 4 (rc h)
    ++ be_bytes 4 (rd h) ++ be_bytes 4 (re h).

End SHA1.

(** ** HMAC (hmac.new(key, msg, hashlib.sha1).digest()) *)

Module HMAC.

Definition block_size : nat := 64.

Definition block_key (key : list Z) : list Z :=
  let k := if (block_size <? length key)%nat then SHA1.digest key else key in
  k ++ repeat 0 (block_size - length k)%nat.

Definition digest (key msg : list Z) : list Z :=
  let k := block_key key in
  let inner := SHA1.digest (map (Z.lxor 0x36) k ++ msg) in
  SHA1.digest (map (Z.lxor 0x5C) k ++ inner).

End HMAC.

(** ** django_otp.oath *)

(** [struct.pack(b'>Q', counter)]: an unsigned 64-bit big-endian field;
    [struct.error] outside its range. *)
Definition pack_Q (counter : Z) : result (list Z) :=
  if (0 <=? counter) && (counter <? 2 ^ 64)
  then Ok (SHA1.be_bytes 8 counter)
  else Raise StructError.

(** [hotp(key, counter, digits)]: RFC 4226 dynamic truncation. *)
Definition hotp (key : list Z) (counter : Z) (digits : Z) : result Z :=
  match pack_Q counter with
  | Raise e => Raise e
  | Ok msg =>
      let hs := HMAC.digest key msg in
      let offset := Z.to_nat (Z.land (nth 19 hs 0) 0x0f) in
      let bin_code :=
        Z.lor (Z.lor (Z.lor (Z.shiftl (Z.land (nth offset hs 0) 0x7f) 24)
                            (Z.shiftl (nth (offset + 1) hs 0) 16))
                     (Z.shiftl (nth (offset + 2) hs 0) 8))
              (nth (offset + 3) hs 0) in
      Ok (bin_code mod 10 ^ digits)
  end.

(** [TOTP(key, step, t0, digits, drift)] with its [time] attribute; [time]
    holds the whole seconds [int(self.time)] that [t] reads. *)
Record TOTP : Type := mkTOTP {
  totp_key : list Z;
  totp_step : Z;
  totp_t0 : Z;
  totp_digits : Z;
  totp_drift : Z;
  totp_time : Z
}.

Definition TOTP_init (key : list Z) (step : Z) : TOTP :=
  mkTOTP key step 0 6 0 0.

Definition set_time (o : TOTP) (t : Z) : TOTP :=
  mkTOTP (totp_key o) (totp_step o) (totp_t0 o) (totp_digits o)
         (totp_drift o) t.

Definition set_drift (o : TOTP) (d : Z) : TOTP :=
  mkTOTP (totp_key o) (totp_step o) (totp_t0 o) (totp_digits o)
         d (totp_time o).

(** [TOTP.t]: [((int(self.time) - self.t0) // self.step) + self.drift]. *)
Definition TOTP_t (o : TOTP) : Z :=
  (totp_time o - totp_t0 o) / totp_step o + totp_drift o.

(** [TOTP.token]: [hotp(self.key, self.t(), digits=self.digits)]. *)
Definition TOTP_token (o : TOTP) : result Z :=
  hotp (totp_key o) (TOTP_t o) (totp_digits o).

(** ** Builtins *)

Definition code_of (c : ascii) : Z := Z.of_N (N_of_ascii c).

Definition ascii_bytes (s : string) : list Z :=
  map code_of (list_ascii_of_string s).

Definition hex_val (c : ascii) : option Z :=
  let n := code_of c in
  if (48 <=? n) && (n <=? 57) then Some (n - 48)
  else if (97 <=? n) && (n <=? 102) then Some (n - 87)
  else if (65 <=? n) && (n <=? 70) then Some (n - 55)
  else None.

(** [binascii.unhexlify]: pairs of hexadecimal digits, [binascii.Error] on
    an odd length or any other character. *)
Fixpoint unhexlify (s : string) : result (list Z) :=
  match s with
  | EmptyString => Ok []
  | String _ EmptyString => Raise BinasciiError
  | String a (String b rest) =>
      match hex_val a, hex_val b, unhexlify rest with
      | Some x, Some y, Ok bs => Ok (16 * x + y :: bs)
      | _, _, _ => Raise BinasciiError
      end
  end.

(** Code points below 256 that [int] skips around a number. *)
Definition is_space (c : ascii) : bool :=
  let n := code_of c in
  ((9 <=? n) && (n <=? 13)) || (n =? 32) || (n =? 133) || (n =? 160).

Definition digit_val (c : ascii) : option Z :=
  let n := code_of c in
  if (48 <=? n) && (n <=? 57) then Some (n - 48) else None.

Definition is_digit (c : ascii) : bool :=
  match digit_val c with Some _ => true | None => false end.

Fixpoint lstrip (l : list ascii) : list ascii :=
  match l with
  | c :: r => if is_space c then lstrip r else l
  | [] => []
  end.

Definition strip (l : list ascii) : list ascii :=
  rev (lstrip (rev (lstrip l))).

(** Decimal digits after a first digit; a single underscore may separate
    two digits. *)
Fixpoint int_digits (acc : Z) (l : list ascii) : option Z :=
  match l with
  | [] => Some acc
  | c :: r =>
      if Ascii.eqb c "_" then
        match r with
        | d :: r' =>
            match digit_val d with
            | Some v => int_digits (10 * acc + v) r'
            | None => None
            end
        | [] => None
        end
      else
        match digit_val c with
        | Some v => int_digits (10 * acc + v) r
        | None => None
        end
  end.

Definition int_unsigned (l : list ascii) : option Z :=
  match l with
  | d :: r =>
      match digit_val d with
      | Some v => int_digits v r
      | None => None
      end
  | [] => None
  end.

(** [int(s)] for a text string (Python 3): surrounding whitespace, an
    optional sign, decimal digits. *)
Definition int_of_str (s : string) : option Z :=
  match strip (list_ascii_of_string s) with
  | c :: r =>
      if Ascii.eqb c "+" then int_unsigned r
      else if Ascii.eqb c "-" then Z.opp <$> int_unsigned r
      else int_unsigned (c :: r)
  | [] => None
  end.

(** The builtin [int]. *)
Definition py_int (v : pyval) : result Z :=
  match v with
  | PyNone => Raise TypeError
  | PyBool b => Ok (Z.b2z b)
  | PyInt n => Ok n
  | PyStr s =>
      match int_of_str s with
      | Some n => Ok n
      | None => Raise ValueError
      end
  end.

(** Truth value of a condition. *)
Definition py_bool (v : pyval) : bool :=
  match v with
  | PyNone => false
  | PyBool b => b
  | PyInt n => negb (n =? 0)
  | PyStr s => negb (String.eqb s "")
  end.

(** Unary minus, as in [-tolerance]. *)
Definition py_neg (v : pyval) : result Z :=
  match v with
  | PyInt n => Ok (- n)
  | PyBool b => Ok (- Z.b2z b)
  | _ => Raise TypeError
  end.

(** [range(a, b)]. *)
Definition py_range (a b : Z) : list Z :=
  map (fun i => a + Z.of_nat i) (seq 0 (Z.to_nat (b - a))).

Definition digit_char (d : Z) : ascii := ascii_of_N (Z.to_N (48 + d)).

Fixpoint dec_digits (fuel : nat) (n : Z) (acc : list ascii) : list ascii :=
  match fuel with
  | O => acc
  | S f =>
      let acc' := digit_char (n mod 10) :: acc in
      if n / 10 =? 0 then acc' else dec_digits f (n / 10) acc'
  end.

(** Decimal digits of a number [n >= 0]. *)
Definition dec_of (n : Z) : list ascii :=
  dec_digits (S (Z.to_nat (Z.log2 n))) n [].

(** [format(n, '06d')]: sign, then zeros up to a total width of six. *)
Definition format_06d (n : Z) : string :=
  let sign := if n <? 0 then ["-"%char] else [] in
  let ds := dec_of (Z.abs n) in
  string_of_list_ascii
    (sign ++ repeat "0"%char (6 - length sign - length ds) ++ ds).

(** [needle in hay] for two text strings. *)
Fixpoint contains (needle hay : string) : bool :=
  if String.prefix needle hay then true
  else match hay with
       | EmptyString => false
       | String _ r => contains needle r
       end.

(** The value of one replacement field of [template.format(token=token)].
    Only the plain field [{token}] is evaluated; a field with a conversion,
    a format specification, an attribute or an index is valid Python left
    outside this fragment and reported as [OutsideFragment]. *)
Definition field_value (token name : list ascii) : result (list ascii) :=
  if existsb (fun c => existsb (Ascii.eqb c) (list_ascii_of_string "!:.[{"))
             name
  then Raise OutsideFragment
  else if String.eqb (string_of_list_ascii name) "token" then Ok token
  else if forallb is_digit name
  then Raise IndexError
  else Raise (KeyError (string_of_list_ascii name)).

(** One pass over the template: [fld] is [Some acc] inside a replacement
    field, [acc] holding the field read so far, reversed. *)
Fixpoint format_go (token : list ascii) (fld : option (list ascii))
    (l : list ascii) : result (list ascii) :=
  match l with
  | [] => match fld with None => Ok [] | Some _ => Raise ValueError end
  | c :: r =>
      match fld with
      | Some acc =>
          if Ascii.eqb c "}" then
            match field_value token (rev acc) with
            | Raise e => Raise e
            | Ok v =>
                match format_go token None r with
                | Ok out => Ok (v ++ out)%list
                | Raise e => Raise e
                end
            end
          else format_go token (Some (c :: acc)) r
      | None =>
          if Ascii.eqb c "{" then
            match r with
            | c' :: r' =>
                if Ascii.eqb c' "{" then
                  match format_go token None r' with
                  | Ok out => Ok (c :: out)
                  | Raise e => Raise e
                  end
                else format_go token (Some []) r
            | [] => Raise ValueError
            end
          else if Ascii.eqb c "}" then
            match r with
            | c' :: r' =>
                if Ascii.eqb c' "}" then
                  match format_go token None r' with
                  | Ok out => Ok (c :: out)
                  | Raise e => Raise e
                  end
                else Raise ValueError
            | [] => Raise ValueError
            end
          else
            match format_go token None r with
            | Ok out => Ok (c :: out)
            | Raise e => Raise e
            end
      end
  end.

(** [template.format(token=token)] on a setting value; only a text string
    has the method. *)
Definition str_format (template : pyval) (token : string) : result string :=
  match template with
  | PyStr t =>
      match format_go (list_ascii_of_string token) None
                      (list_ascii_of_string t) with
      | Ok out => Ok (string_of_list_ascii out)
      | Raise e => Raise e
      end
  | _ => Raise (AttributeError "format")
  end.

(** ** conf.py *)

Module Settings.

Definition _defaults : gmap string pyval :=
  list_to_map [
    ("OTP_TEXTLOCAL_ACCOUNT", PyNone);
    ("OTP_TEXTLOCAL_AUTH", PyNone);
    ("OTP_TEXTLOCAL_CHALLENGE_MESSAGE", PyStr "Sent by SMS");
    ("OTP_TEXTLOCAL_FROM", PyNone);
    ("OTP_TEXTLOCAL_NO_DELIVERY", PyBool false);
    ("OTP_TEXTLOCAL_TOKEN_TEMPLATE", PyStr "{token}");
    ("OTP_TEXTLOCAL_TOKEN_VALIDITY", PyInt 30)
  ].

(** [django] holds the attributes of [django.conf.settings]. *)
Definition __getattr__ (django : gmap string pyval) (name : string)
    : result pyval :=
  match django !! name with
  | Some value => Ok value
  | None =>
      match _defaults !! name with
      | Some value => Ok value
      | None => Raise (AttributeError name)
      end
  end.

End Settings.

(** ** The world around the device *)

(** A [TextlocalSMSDevice] row: the fields of [django_otp.models.Device]
    and the three fields the class adds. *)
Record Device : Type := mkDevice {
  pk : Z;
  user : Z;
  name : string;
  confirmed : bool;
  number : string;
  key : string;
  last_t : Z
}.

Definition set_last_t (d : Device) (t : Z) : Device :=
  mkDevice (pk d) (user d) (name d) (confirmed d) (number d) (key d) t.

(** The form posted to the provider. *)
Record Request : Type := mkRequest {
  req_url : pyval;
  req_sender : pyval;
  req_message : string;
  req_numbers : string;
  req_apiKey : pyval
}.

(** What [requests.post] hands back: the status line and the outcome of
    [response.json()], [None] when the body is not JSON. *)
Record Response : Type := mkResponse {
  status_code : Z;
  body : option Json
}.

Inductive PostOutcome : Type :=
  | TransportFailure
  | Responded (r : Response).

Inductive log_entry : Type :=
  | LogInfo (msg : string)
  | LogException (e : exn)
  | LogError (body : Json).

(** What a call reads from its surroundings: the clock, the Django
    settings and the provider's answer to a request. [now] is
    [int(time.time())], the whole seconds that [TOTP.t] uses. *)
Record Env : Type := mkEnv {
  now : Z;
  django : gmap string pyval;
  network : Request → PostOutcome
}.

(** What a call can change: the device object, the stored rows, the log
    and the requests sent. *)
Record State : Type := mkState {
  self : Device;
  db : gmap Z Device;
  log : list log_entry;
  outbox : list Request
}.

(** ** State and exceptions *)

Definition M (A : Type) : Type := State → result A * State.

Definition ret {A} (a : A) : M A := fun s => (Ok a, s).

Definition bind {A B} (m : M A) (k : A → M B) : M B :=
  fun s =>
    match m s with
    | (Ok a, s') => k a s'
    | (Raise e, s') => (Raise e, s')
    end.

Definition raise {A} (e : exn) : M A := fun s => (Raise e, s).

Definition lift {A} (r : result A) : M A := fun s => (r, s).

Definition get_self : M Device := fun s => (Ok (self s), s).

Notation "'let!' x ':=' c 'in' k" := (bind c (fun x => k))
  (at level 10, x name, c at level 100, k at level 200).

Definition setting (env : Env) (name : string) : M pyval :=
  lift (Settings.__getattr__ (django env) name).

Definition logger (e : log_entry) : M unit :=
  fun s => (Ok tt, mkState (self s) (db s) (log s ++ [e]) (outbox s)).

(** [self.last_t = t]. *)
Definition assign_last_t (t : Z) : M unit :=
  fun s => (Ok tt, mkState (set_last_t (self s) t) (db s) (log s) (outbox s)).

(** The signed 64-bit range of a [BigIntegerField]. *)
Definition bigint_range (n : Z) : bool := (- 2 ^ 63 <=? n) && (n <? 2 ^ 63).

(** [self.save()]: the row of this primary key is overwritten. A [last_t]
    outside the range of its [BigIntegerField] is refused by the database
    ([OverflowError] on SQLite, [DataError] on PostgreSQL), here
    [DatabaseRangeError]; the object keeps what was assigned to it and
    the row is not written. *)
Definition save : M unit :=
  fun s =>
    if bigint_range (last_t (self s)) then
      (Ok tt, mkState (self s) (<[pk (self s) := self s]> (db s)) (log s)
                      (outbox s))
    else (Raise DatabaseRangeError, s).

(** [requests.post(url, data=data)]. *)
Definition requests_post (env : Env) (req : Request) : M Response :=
  fun s =>
    let s' := mkState (self s) (db s) (log s) (outbox s ++ [req]) in
    match network env req with
    | TransportFailure => (Raise ConnectionError, s')
    | Responded r => (Ok r, s')
    end.

(** [response.raise_for_status()]: an [HTTPError] for the client and
    server error classes. *)
Definition raise_for_status (r : Response) : result unit :=
  if (400 <=? status_code r) && (status_code r <? 600)
  then Raise (HTTPError (status_code r))
  else Ok tt.

Definition response_json (r : Response) : result Json :=
  match body r with
  | Some j => Ok j
  | None => Raise ValueError
  end.

(** ['status' in json_response]. *)
Definition json_contains_status (j : Json) : result bool :=
  match j with
  | JObj f => Ok (bool_decide (is_Some (f !! "status")))
  | JArr l =>
      Ok (existsb (fun x => match x with
                            | JStr s => String.eqb s "status"
                            | _ => false
                            end) l)
  | JStr s => Ok (contains "status" s)
  | _ => Raise TypeError
  end.

(** [json_response['status']]. *)
Definition json_getitem_status (j : Json) : result Json :=
  match j with
  | JObj f =>
      match f !! "status" with
      | Some v => Ok v
      | None => Raise (KeyError "status")
      end
  | _ => Raise TypeError
  end.

Definition is_success (j : Json) : bool :=
  match j with
  | JStr s => String.eqb s "success"
  | _ => false
  end.

(** [('status' not in json_response) or json_response['status'] != 'success']. *)
Definition delivery_rejected (j : Json) : result bool :=
  match json_contains_status j with
  | Raise e => Raise e
  | Ok false => Ok true
  | Ok true =>
      match json_getitem_status j with
      | Raise e => Raise e
      | Ok v => Ok (negb (is_success v))
      end
  end.

(** ** models.py: TextlocalSMSDevice *)

Definition is_none (v : pyval) : bool :=
  match v with PyNone => true | _ => false end.

Definition bin_key : M (list Z) :=
  let! d := get_self in lift (unhexlify (key d)).

Definition totp_obj (env : Env) : M TOTP :=
  let! k := bin_key in
  let totp := TOTP_init k 1 in
  ret (set_time totp (now env)).

Definition _validate_config (env : Env) : M unit :=
  let! api_key := setting env "OTP_TEXTLOCAL_API_KEY" in
  if is_none api_key then
    raise (ImproperlyConfigured
             "OTP_TEXTLOCAL_API_KEY must be set to your Textlocal API KEY")
  else
  let! url := setting env "OTP_TEXTLOCAL_URL" in
  if is_none url then
    raise (ImproperlyConfigured
             "OTP_TEXTLOCAL_URL must be set to the Textlocal send-msg API endpoint URL")
  else
  let! sender := setting env "OTP_TEXTLOCAL_SENDER" in
  if is_none sender then
    raise (ImproperlyConfigured
             "OTP_TEXTLOCAL_SENDER must be set to one of your Textlocal sender (based on mask)")
  else ret tt.

Definition _deliver_token (env : Env) (token : string) : M unit :=
  let! _ := _validate_config env in
  let! url := setting env "OTP_TEXTLOCAL_URL" in
  let! sender := setting env "OTP_TEXTLOCAL_SENDER" in
  let! d := get_self in
  let! api_key := setting env "OTP_TEXTLOCAL_API_KEY" in
  let data := mkRequest url sender token (number d) api_key in
  let! response := requests_post env data in
  let! _ :=
    match raise_for_status response with
    | Raise e => let! _ := logger (LogException e) in raise e
    | Ok _ => ret tt
    end in
  let! json_response := lift (response_json response) in
  let! rejected := lift (delivery_rejected json_response) in
  if rejected then
    let! _ := logger (LogError json_response) in
    raise (DeliveryException json_response)
  else ret tt.

Definition generate_challenge (env : Env) : M string :=
  let! totp := totp_obj env in
  let! code := lift (TOTP_token totp) in
  let token := format_06d code in
  let! template := setting env "OTP_TEXTLOCAL_TOKEN_TEMPLATE" in
  let! message := lift (str_format template token) in
  let! no_delivery := setting env "OTP_TEXTLOCAL_NO_DELIVERY" in
  let! _ :=
    if py_bool no_delivery then logger (LogInfo message)
    else _deliver_token env message in
  let! challenge_template := setting env "OTP_TEXTLOCAL_CHALLENGE_MESSAGE" in
  let! challenge := lift (str_format challenge_template token) in
  ret challenge.

(** The [for offset in range(-tolerance, 1)] loop with its [else]. *)
Fixpoint verify_scan (totp : TOTP) (token : Z) (offsets : list Z) : M bool :=
  match offsets with
  | [] => ret false
  | offset :: rest =>
      let totp := set_drift totp offset in
      let! d := get_self in
      if TOTP_t totp >? last_t d then
        let! code := lift (TOTP_token totp) in
        if code =? token then
          let! _ := assign_last_t (TOTP_t totp) in
          let! _ := save in
          ret true
        else verify_scan totp token rest
      else verify_scan totp token rest
  end.

Definition verify_token (env : Env) (token : pyval) : M bool :=
  match py_int token with
  | Raise _ => ret false
  | Ok token =>
      let! totp := totp_obj env in
      let! tolerance := setting env "OTP_TEXTLOCAL_TOKEN_VALIDITY" in
      let! lo := lift (py_neg tolerance) in
      verify_scan totp token (py_range lo 1)
  end.

(** ** Vocabulary of the properties *)

(** The code that [generate_challenge] works with, as text: its first two
    lines on their own. *)
Definition current_token (env : Env) : M string :=
  let! totp := totp_obj env in
  let! code := lift (TOTP_token totp) in
  ret (format_06d code).

(** What [generate_challenge] does once it has the code text. *)
Definition challenge_with (env : Env) (token : string) : M string :=
  let! template := setting env "OTP_TEXTLOCAL_TOKEN_TEMPLATE" in
  let! message := lift (str_format template token) in
  let! no_delivery := setting env "OTP_TEXTLOCAL_NO_DELIVERY" in
  let! _ :=
    if py_bool no_delivery then logger (LogInfo message)
    else _deliver_token env message in
  let! challenge_template := setting env "OTP_TEXTLOCAL_CHALLENGE_MESSAGE" in
  let! challenge := lift (str_format challenge_template token) in
  ret challenge.

(** A generator as [totp_obj] builds it, with its drift set. *)
Definition totp_at (kb : list Z) (time drift : Z) : TOTP :=
  mkTOTP kb 1 0 6 drift time.

(** An offset is accepted when its step is above the watermark and its
    code is the candidate. *)
Definition accepts (kb : list Z) (last time token offset : Z) : bool :=
  (time + offset >? last)
  && match hotp kb (time + offset) 6 with
     | Ok code => code =? token
     | Raise _ => false
     end.

(** The state after a code was accepted at step [t]: the watermark is [t]
    and the row is stored. *)
Definition accepted_at (st : State) (t : Z) : State :=
  mkState (set_last_t (self st) t)
          (<[pk (self st) := set_last_t (self st) t]> (db st))
          (log st) (outbox st).

(** The state after step [t] was assigned to the watermark and the row
    could not be stored. *)
Definition assigned_at (st : State) (t : Z) : State :=
  mkState (set_last_t (self st) t) (db st) (log st) (outbox st).

(** The engine is defined on every step that the scan hands to it. *)
Definition probes_defined (last time : Z) (offsets : list Z) : Prop :=
  ∀ off, In off offsets → last < time + off → 0 <= time + off < 2 ^ 64.

(** A run of calls, each with its own time, settings and candidate. *)
Definition verify_calls (calls : list (Env * pyval)) (st : State) : State :=
  fold_left (fun s c => snd (verify_token (fst c) (snd c) s)) calls st.


(** The number a run of decimal digits denotes, continuing from [acc]. *)
Definition dec_value (l : list ascii) (acc : Z) : Z :=
  fold_left (fun a c => 10 * a + (code_of c - 48)) l acc.

(** A computation that leaves the device object and the stored rows as
    they are. *)
Definition keeps_device {A} (m : M A) : Prop :=
  ∀ s, self (snd (m s)) = self s ∧ db (snd (m s)) = db s.

(** The three delivery settings are readable and none of them is [None]. *)
Definition delivery_configured (env : Env) (api_key url sender : pyval)
    : Prop :=
  Settings.__getattr__ (django env) "OTP_TEXTLOCAL_API_KEY" = Ok api_key
  ∧ is_none api_key = false
  ∧ Settings.__getattr__ (django env) "OTP_TEXTLOCAL_URL" = Ok url
  ∧ is_none url = false
  ∧ Settings.__getattr__ (django env) "OTP_TEXTLOCAL_SENDER" = Ok sender
  ∧ is_none sender = false.

(** The state after [generate_challenge] logged [message] instead of
    sending it. *)
Definition logged (st : State) (message : string) : State :=
  mkState (self st) (db st) (log st ++ [LogInfo message]) (outbox st).

(** ** Fixtures of tests.py *)

Definition alice : Device :=
  mkDevice 1 1 "" true "test" "01234567890123456789" (-1).

Definition alice_key : list Z := [1; 35; 69; 103; 137; 1; 35; 69; 103; 137].

Definition fresh (d : Device) : State := mkState d {[ pk d := d ]} [] [].

Definition offline : Request → PostOutcome := fun _ => TransportFailure.

Definition test_settings : gmap string pyval :=
  list_to_map [("OTP_TEXTLOCAL_NO_DELIVERY", PyBool true);
               ("OTP_TEXTLOCAL_CHALLENGE_MESSAGE", PyStr "{token}")].

Definition textlocal_settings : gmap string pyval :=
  list_to_map [("OTP_TEXTLOCAL_API_KEY", PyStr "k");
               ("OTP_TEXTLOCAL_URL", PyStr "https://api.textlocal.in/send/");
               ("OTP_TEXTLOCAL_SENDER", PyStr "TXTLCL")].

Definition answers (status : Z) (j : Json) : Request → PostOutcome :=
  fun _ => Responded (mkResponse status (Some j)).

Definition success_body : Json := JObj {[ "status" := JStr "success" ]}.

(** ** django_otp.util and the key helpers of models.py *)

Definition hex_digit (n : Z) : ascii :=
  ascii_of_N (Z.to_N (if n <? 10 then 48 + n else 87 + n)).

(** [binascii.hexlify]: two lower-case digits per byte. *)
Fixpoint hexlify (bs : list Z) : string :=
  match bs with
  | [] => EmptyString
  | b :: r =>
      String (hex_digit (b / 16)) (String (hex_digit (b mod 16)) (hexlify r))
  end.

(** [random_hex(length)]: [hexlify(urandom(length))] as text; the source of
    randomness is an argument. *)
Definition random_hex (urandom : nat → list Z) (length : nat) : string :=
  hexlify (urandom length).

Definition default_key (urandom : nat → list Z) : string :=
  random_hex urandom 20.

(** What a Django validator does with a value: it returns, or raises
    [ValidationError] for one of two reasons. *)
Inductive invalid : Type :=
  | NotHexEncoded
  | NotExactlyBytes (length : nat).

Inductive validation : Type :=
  | Valid
  | ValidationError (reason : invalid).

(** [hex_validator(length)(value)]: the value must decode, and when
    [length] is positive it must have twice that many characters. *)
Definition hex_validator (length : nat) (value : string) : validation :=
  match unhexlify value with
  | Raise _ => ValidationError NotHexEncoded
  | Ok _ =>
      if (0 <? length)%nat && negb (String.length value =? length * 2)%nat
      then ValidationError (NotExactlyBytes length)
      else Valid
  end.

Definition key_validator (value : string) : validation :=
  hex_validator 20 value.

(** ** Further vocabulary *)

Definition is_hex (c : ascii) : bool :=
  match hex_val c with Some _ => true | None => false end.

(** An offset at which the scan of [verify_token] ends: its step is above
    the watermark and its code is the candidate or cannot be computed. *)
Definition stops (kb : list Z) (last time token offset : Z) : bool :=
  (time + offset >? last)
  && match hotp kb (time + offset) 6 with
     | Ok code => code =? token
     | Raise _ => true
     end.

(** A template without braces. *)
Definition brace_free (t : string) : bool :=
  forallb (fun c => negb (Ascii.eqb c "{" || Ascii.eqb c "}"))
          (list_ascii_of_string t).

(** How many calls of a run returned true. *)
Fixpoint accepted_count (calls : list (Env * pyval)) (st : State) : nat :=
  match calls with
  | [] => O
  | (env, token) :: rest =>
      let (r, st') := verify_token env token st in
      ((match r with Ok true => 1 | _ => 0 end) + accepted_count rest st')%nat
  end.

(** * Properties *)

(** ** Test vectors *)

Example sha1_abc :
  SHA1.digest (ascii_bytes "abc")
  = [0xa9; 0x99; 0x3e; 0x36; 0x47; 0x06; 0x81; 0x6a; 0xba; 0x3e;
     0x25; 0x71; 0x78; 0x50; 0xc2; 0x6c; 0x9c; 0xd0; 0xd8; 0x9d].
Proof. vm_compute. reflexivity. Qed.

(** The vectors of RFC 4226, appendix D. *)
Example hotp_rfc4226 :
  map (fun c => hotp (ascii_bytes "12345678901234567890") c 6)
      [0; 1; 2; 3; 4; 5; 6; 7; 8; 9]
  = map Ok [755224; 287082; 359152; 969429; 338314;
            254676; 287922; 162583; 399871; 520489].
Proof. vm_compute. reflexivity. Qed.

Example alice_bin_key : unhexlify (key alice) = Ok alice_key.
Proof. vm_compute. reflexivity. Qed.

(** ** The engine *)

Lemma pack_Q_inv counter msg :
  pack_Q counter = Ok msg → 0 <= counter < 2 ^ 64.
Proof.
  unfold pack_Q. intros H.
  destruct (0 <=? counter) eqn:H0; destruct (counter <? 2 ^ 64) eqn:H1;
    cbn [andb] in H; try discriminate.
  apply Z.leb_le in H0. apply Z.ltb_lt in H1. lia.
Qed.

Lemma hotp_defined key counter digits :
  0 <= counter < 2 ^ 64 → ∃ v, hotp key counter digits = Ok v.
Proof.
  intros [H0 H1]. unfold hotp, pack_Q.
  apply Z.leb_le in H0. apply Z.ltb_lt in H1. rewrite H0, H1.
  cbn [andb]. eexists. reflexivity.
Qed.

Lemma hotp_inv key counter v :
  hotp key counter 6 = Ok v →
  0 <= counter < 2 ^ 64 ∧ 0 <= v < 1000000.
Proof.
  unfold hotp. destruct (pack_Q counter) as [msg|e] eqn:Hp; [|discriminate].
  intros H. injection H as <-. split.
  - eapply pack_Q_inv; eassumption.
  - apply Z.mod_pos_bound. reflexivity.
Qed.

Lemma totp_at_t kb time drift : TOTP_t (totp_at kb time drift) = time + drift.
Proof. unfold TOTP_t. simpl. rewrite Z.sub_0_r, Z.div_1_r. reflexivity. Qed.

Lemma totp_at_token kb time drift :
  TOTP_token (totp_at kb time drift) = hotp kb (time + drift) 6.
Proof. unfold TOTP_token. rewrite totp_at_t. reflexivity. Qed.

Lemma totp_obj_eq env st kb :
  unhexlify (key (self st)) = Ok kb →
  totp_obj env st = (Ok (totp_at kb (now env) 0), st).
Proof.
  intros Hk. unfold totp_obj, bin_key, bind, get_self, lift, ret.
  rewrite Hk. reflexivity.
Qed.

Lemma totp_obj_raise env st e :
  unhexlify (key (self st)) = Raise e →
  totp_obj env st = (Raise e, st).
Proof.
  intros Hk. unfold totp_obj, bin_key, bind, get_self, lift, ret.
  rewrite Hk. reflexivity.
Qed.

(** ** range *)

Lemma py_range_nil a b : b <= a → py_range a b = [].
Proof.
  intros H. unfold py_range. replace (Z.to_nat (b - a)) with O by lia.
  reflexivity.
Qed.

Lemma py_range_cons a b : a < b → py_range a b = a :: py_range (a + 1) b.
Proof.
  intros H. unfold py_range.
  replace (Z.to_nat (b - a)) with (S (Z.to_nat (b - (a + 1)))) by lia.
  simpl. f_equal; [lia|].
  rewrite <- seq_shift, map_map. apply map_ext. intros i. lia.
Qed.

Lemma py_range_In a b x : In x (py_range a b) ↔ a <= x < b.
Proof.
  unfold py_range. rewrite in_map_iff. split.
  - intros (i & <- & Hi). apply in_seq in Hi. lia.
  - intros H. exists (Z.to_nat (x - a)). split; [lia|]. apply in_seq. lia.
Qed.

(** ** The scan of [verify_token] *)

Lemma verify_scan_find kb time drift token offsets st :
  probes_defined (last_t (self st)) time offsets →
  verify_scan (totp_at kb time drift) token offsets st
  = match find (accepts kb (last_t (self st)) time token) offsets with
    | Some off =>
        if bigint_range (time + off)
        then (Ok true, accepted_at st (time + off))
        else (Raise DatabaseRangeError, assigned_at st (time + off))
    | None => (Ok false, st)
    end.
Proof.
  revert drift. induction offsets as [|off rest IH]; intros drift Hdef.
  - reflexivity.
  - assert (Hrest : probes_defined (last_t (self st)) time rest).
    { intros o Ho. apply Hdef. right. exact Ho. }
    cbn [verify_scan find]. unfold accepts at 1.
    change (set_drift (totp_at kb time drift) off) with (totp_at kb time off).
    unfold bind at 1. unfold get_self at 1.
    rewrite totp_at_t.
    destruct (time + off >? last_t (self st)) eqn:Hgt; cbn [andb].
    + unfold bind at 1, lift at 1. rewrite totp_at_token.
      destruct (hotp_defined kb (time + off) 6) as [v Hv].
      { apply Hdef; [left; reflexivity|]. apply Z.gtb_lt in Hgt. lia. }
      rewrite Hv.
      destruct (v =? token).
      * unfold bind, assign_last_t, save, ret. cbn [self last_t set_last_t].
        destruct (bigint_range (time + off)); reflexivity.
      * apply IH. exact Hrest.
    + apply IH. exact Hrest.
Qed.

Lemma watermark_probes last time offsets :
  -1 <= last → time < 2 ^ 64 → (∀ off, In off offsets → off <= 0) →
  probes_defined last time offsets.
Proof. intros Hl Ht Hneg off Hin Hgt. specialize (Hneg off Hin). lia. Qed.

Lemma setting_eq env name v st :
  Settings.__getattr__ (django env) name = v → setting env name st = (v, st).
Proof. intros <-. reflexivity. Qed.

Lemma verify_token_find env st token n kb tol :
  py_int token = Ok n →
  unhexlify (key (self st)) = Ok kb →
  Settings.__getattr__ (django env) "OTP_TEXTLOCAL_TOKEN_VALIDITY"
    = Ok (PyInt tol) →
  probes_defined (last_t (self st)) (now env) (py_range (- tol) 1) →
  verify_token env token st
  = match find (accepts kb (last_t (self st)) (now env) n)
               (py_range (- tol) 1) with
    | Some off =>
        if bigint_range (now env + off)
        then (Ok true, accepted_at st (now env + off))
        else (Raise DatabaseRangeError, assigned_at st (now env + off))
    | None => (Ok false, st)
    end.
Proof.
  intros Hn Hk Htol Hdef. unfold verify_token. rewrite Hn.
  unfold bind at 1. rewrite (totp_obj_eq env st kb Hk).
  unfold bind at 1. rewrite (setting_eq _ _ _ _ Htol).
  unfold bind at 1, lift at 1. cbn [py_neg].
  apply verify_scan_find. exact Hdef.
Qed.

(** ** The first accepted offset *)

Lemma find_py_range_first (P : Z → bool) a b x :
  find P (py_range a b) = Some x →
  a <= x < b ∧ P x = true ∧ ∀ y, a <= y < x → P y = false.
Proof.
  remember (Z.to_nat (b - a)) as n eqn:Hn. revert a Hn.
  induction n as [|n IH]; intros a Hn Hfind.
  - rewrite py_range_nil in Hfind by lia. discriminate.
  - rewrite py_range_cons in Hfind by lia. cbn [find] in Hfind.
    destruct (P a) eqn:Hpa.
    + injection Hfind as <-. repeat split; try lia. exact Hpa.
    + apply IH in Hfind; [|lia]. destruct Hfind as (Hx & Hpx & Hbefore).
      repeat split; try lia; [exact Hpx|].
      intros y Hy. destruct (Z.eq_dec y a) as [->|Hne]; [exact Hpa|].
      apply Hbefore. lia.
Qed.

Lemma find_py_range_none (P : Z → bool) a b :
  find P (py_range a b) = None ↔ ∀ y, a <= y < b → P y = false.
Proof.
  split.
  - intros Hfind y Hy. apply (find_none P _ Hfind). apply py_range_In. exact Hy.
  - intros Hall. destruct (find P (py_range a b)) as [x|] eqn:Hfind; [|done].
    apply find_py_range_first in Hfind. destruct Hfind as (Hx & Hpx & _).
    rewrite Hall in Hpx by exact Hx. discriminate.
Qed.

Lemma find_py_range_some (P : Z → bool) a b x :
  a <= x < b → P x = true → (∀ y, a <= y < x → P y = false) →
  find P (py_range a b) = Some x.
Proof.
  intros Hx Hpx Hbefore.
  destruct (find P (py_range a b)) as [x'|] eqn:Hfind.
  - apply find_py_range_first in Hfind. destruct Hfind as (Hx' & Hpx' & Hb').
    f_equal. destruct (Z.lt_trichotomy x' x) as [Hlt|[->|Hgt]]; [|done|].
    + rewrite Hbefore in Hpx' by lia. discriminate.
    + rewrite Hb' in Hpx by lia. discriminate.
  - rewrite find_py_range_none in Hfind. rewrite Hfind in Hpx by exact Hx.
    discriminate.
Qed.

Lemma accepts_inv kb last time n off :
  accepts kb last time n off = true →
  last < time + off ∧ hotp kb (time + off) 6 = Ok n.
Proof.
  unfold accepts. intros H. apply andb_true_iff in H as [Hgt Hc].
  apply Z.gtb_lt in Hgt. split; [lia|].
  destruct (hotp kb (time + off) 6) as [c|e]; [|discriminate].
  apply Z.eqb_eq in Hc. subst c. reflexivity.
Qed.

Lemma accepts_true kb last time n off :
  last < time + off → hotp kb (time + off) 6 = Ok n →
  accepts kb last time n off = true.
Proof.
  intros Hlt Hc. unfold accepts. rewrite Hc, Z.eqb_refl.
  destruct (Z.gtb_spec (time + off) last); [reflexivity|lia].
Qed.

Lemma bigint_range_spec n :
  bigint_range n = true ↔ - 2 ^ 63 <= n < 2 ^ 63.
Proof.
  unfold bigint_range. rewrite andb_true_iff, Z.leb_le, Z.ltb_lt. reflexivity.
Qed.

(** A step that the scan accepts is a counter of the engine, so it is
    not negative; at a time below 2^63 it fits the watermark column. *)
Lemma accepts_bigint kb last time n off :
  accepts kb last time n off = true → off <= 0 → time < 2 ^ 63 →
  bigint_range (time + off) = true.
Proof.
  intros Hok Hoff Htime. apply accepts_inv in Hok as [_ Hc].
  apply hotp_inv in Hc as [Hc _]. apply bigint_range_spec. lia.
Qed.

Lemma window_probes last time tol :
  -1 <= last → time < 2 ^ 64 → probes_defined last time (py_range (- tol) 1).
Proof.
  intros Hl Ht. apply watermark_probes; [exact Hl|exact Ht|].
  intros off Hin. apply py_range_In in Hin. lia.
Qed.

(** C1. For a device whose key decodes and whose watermark is at least the
    initial -1, at any time below 2^63 (the steps that the watermark
    column can hold), [verify_token] on a candidate that parses to [n]
    scans the offsets -tolerance .. 0 in ascending order: it accepts the
    first offset whose step is above the watermark and whose code is [n],
    so that afterwards the watermark is that step and the stored row is
    the device, and returns true; when no offset qualifies it returns
    false and changes nothing. One of the two cases always applies. *)
Theorem verify_token_first_offset env st token n kb tol :
  py_int token = Ok n →
  unhexlify (key (self st)) = Ok kb →
  Settings.__getattr__ (django env) "OTP_TEXTLOCAL_TOKEN_VALIDITY"
    = Ok (PyInt tol) →
  -1 <= last_t (self st) →
  now env < 2 ^ 63 →
  let ok := accepts kb (last_t (self st)) (now env) n in
  (∀ off, - tol <= off <= 0 → ok off = true →
     (∀ o, - tol <= o < off → ok o = false) →
     ∃ st', verify_token env token st = (Ok true, st')
            ∧ st' = accepted_at st (now env + off)
            ∧ last_t (self st') = now env + off
            ∧ db st' !! pk (self st') = Some (self st'))
  ∧ ((∀ off, - tol <= off <= 0 → ok off = false) →
     verify_token env token st = (Ok false, st))
  ∧ ((∃ off, - tol <= off <= 0 ∧ ok off = true
             ∧ ∀ o, - tol <= o < off → ok o = false)
     ∨ (∀ off, - tol <= off <= 0 → ok off = false)).
Proof.
  intros Hn Hk Htol Hlast Hnow ok.
  assert (Hnow64 : now env < 2 ^ 64) by lia.
  pose proof (verify_token_find env st token n kb tol Hn Hk Htol
                (window_probes _ _ _ Hlast Hnow64)) as Heq.
  fold ok in Heq. split; [|split].
  - intros off Hoff Hok Hbefore. exists (accepted_at st (now env + off)).
    split; [|split; [reflexivity|split; [reflexivity|]]].
    + rewrite Heq.
      rewrite (find_py_range_some ok (- tol) 1 off);
        [|lia|exact Hok|exact Hbefore].
      rewrite (accepts_bigint _ _ _ _ _ Hok) by lia. reflexivity.
    + cbn. apply lookup_insert_eq.
  - intros Hnone. rewrite Heq.
    replace (find ok (py_range (- tol) 1)) with (@None Z); [reflexivity|].
    symmetry. apply find_py_range_none. intros y Hy. apply Hnone. lia.
  - destruct (find ok (py_range (- tol) 1)) as [off|] eqn:Hfind.
    + left. exists off. apply find_py_range_first in Hfind.
      destruct Hfind as (Hoff & Hok & Hbefore). repeat split; try lia.
      * exact Hok.
      * exact Hbefore.
    + right. intros off Hoff. rewrite find_py_range_none in Hfind.
      apply Hfind. lia.
Qed.

(** ** What a call of [verify_token] can do *)

Lemma verify_scan_outcome kb time drift token offsets st r st' :
  verify_scan (totp_at kb time drift) token offsets st = (r, st') →
  (∃ off, In off offsets ∧ r = Ok true ∧ last_t (self st) < time + off
          ∧ hotp kb (time + off) 6 = Ok token
          ∧ bigint_range (time + off) = true
          ∧ st' = accepted_at st (time + off))
  ∨ (∃ off, In off offsets ∧ r = Raise DatabaseRangeError
            ∧ last_t (self st) < time + off
            ∧ hotp kb (time + off) 6 = Ok token
            ∧ bigint_range (time + off) = false
            ∧ st' = assigned_at st (time + off))
  ∨ (r ≠ Ok true ∧ st' = st).
Proof.
  revert drift. induction offsets as [|off rest IH]; intros drift Hrun.
  - injection Hrun as <- <-. right. right. split; [discriminate|reflexivity].
  - cbn [verify_scan] in Hrun.
    change (set_drift (totp_at kb time drift) off) with (totp_at kb time off)
      in Hrun.
    unfold bind at 1, get_self at 1 in Hrun. rewrite totp_at_t in Hrun.
    assert (Hnext :
      verify_scan (totp_at kb time off) token rest st = (r, st') →
      (∃ off0, In off0 (off :: rest) ∧ r = Ok true
               ∧ last_t (self st) < time + off0
               ∧ hotp kb (time + off0) 6 = Ok token
               ∧ bigint_range (time + off0) = true
               ∧ st' = accepted_at st (time + off0))
      ∨ (∃ off0, In off0 (off :: rest) ∧ r = Raise DatabaseRangeError
                 ∧ last_t (self st) < time + off0
                 ∧ hotp kb (time + off0) 6 = Ok token
                 ∧ bigint_range (time + off0) = false
                 ∧ st' = assigned_at st (time + off0))
      ∨ (r ≠ Ok true ∧ st' = st)).
    { intros H. apply IH in H.
      destruct H as [(o & Ho & H)|[(o & Ho & H)|H]].
      - left. exists o. split; [right; exact Ho|exact H].
      - right. left. exists o. split; [right; exact Ho|exact H].
      - right. right. exact H. }
    destruct (time + off >? last_t (self st)) eqn:Hgt; [|exact (Hnext Hrun)].
    unfold bind at 1, lift at 1 in Hrun. rewrite totp_at_token in Hrun.
    destruct (hotp kb (time + off) 6) as [v|e] eqn:Hv.
    + destruct (v =? token) eqn:Heq; [|exact (Hnext Hrun)].
      apply Z.eqb_eq in Heq. subst v. apply Z.gtb_lt in Hgt.
      unfold bind, assign_last_t, save, ret in Hrun.
      cbn [self last_t set_last_t] in Hrun.
      destruct (bigint_range (time + off)) eqn:Hfit; injection Hrun as <- <-.
      * left. exists off.
        repeat split; [left; reflexivity|exact Hgt|exact Hv|exact Hfit].
      * right. left. exists off.
        repeat split; [left; reflexivity|exact Hgt|exact Hv|exact Hfit].
    + injection Hrun as <- <-. right. right.
      split; [discriminate|reflexivity].
Qed.

Lemma verify_token_outcome env token st r st' :
  verify_token env token st = (r, st') →
  (∃ n kb t, py_int token = Ok n ∧ unhexlify (key (self st)) = Ok kb
             ∧ r = Ok true ∧ last_t (self st) < t ∧ t <= now env
             ∧ hotp kb t 6 = Ok n ∧ bigint_range t = true
             ∧ st' = accepted_at st t)
  ∨ (∃ n kb t, py_int token = Ok n ∧ unhexlify (key (self st)) = Ok kb
               ∧ r = Raise DatabaseRangeError
               ∧ last_t (self st) < t ∧ t <= now env
               ∧ hotp kb t 6 = Ok n ∧ bigint_range t = false
               ∧ st' = assigned_at st t)
  ∨ (r ≠ Ok true ∧ st' = st).
Proof.
  unfold verify_token. intros Hrun.
  destruct (py_int token) as [n|e] eqn:Hn.
  2:{ injection Hrun as <- <-. right. right.
      split; [discriminate|reflexivity]. }
  unfold bind at 1 in Hrun.
  destruct (unhexlify (key (self st))) as [kb|e] eqn:Hk.
  2:{ rewrite (totp_obj_raise env st e Hk) in Hrun. injection Hrun as <- <-.
      right. right. split; [discriminate|reflexivity]. }
  rewrite (totp_obj_eq env st kb Hk) in Hrun.
  unfold bind at 1, setting at 1, lift at 1 in Hrun.
  destruct (Settings.__getattr__ (django env) "OTP_TEXTLOCAL_TOKEN_VALIDITY")
    as [tv|e].
  2:{ injection Hrun as <- <-. right. right.
      split; [discriminate|reflexivity]. }
  unfold bind at 1, lift at 1 in Hrun.
  destruct (py_neg tv) as [lo|e].
  2:{ injection Hrun as <- <-. right. right.
      split; [discriminate|reflexivity]. }
  apply verify_scan_outcome in Hrun.
  destruct Hrun as [(off & Hin & Hr & Hlt & Hcode & Hfit & Hst)
                   |[(off & Hin & Hr & Hlt & Hcode & Hfit & Hst)|H]].
  - left. exists n, kb, (now env + off). apply py_range_In in Hin.
    repeat split; try assumption. lia.
  - right. left. exists n, kb, (now env + off). apply py_range_In in Hin.
    repeat split; try assumption. lia.
  - right. right. exact H.
Qed.

Lemma verify_token_watermark env token st :
  last_t (self st) <= last_t (self (snd (verify_token env token st))).
Proof.
  destruct (verify_token env token st) as [r st'] eqn:Hrun.
  apply verify_token_outcome in Hrun.
  destruct Hrun as [(n & kb & t & _ & _ & _ & Hlt & _ & _ & _ & ->)
                   |[(n & kb & t & _ & _ & _ & Hlt & _ & _ & _ & ->)
                    |[_ ->]]]; simpl; lia.
Qed.

Lemma verify_token_key env token st :
  key (self (snd (verify_token env token st))) = key (self st).
Proof.
  destruct (verify_token env token st) as [r st'] eqn:Hrun.
  apply verify_token_outcome in Hrun.
  destruct Hrun as [(n & kb & t & _ & _ & _ & Hlt & _ & _ & _ & ->)
                   |[(n & kb & t & _ & _ & _ & Hlt & _ & _ & _ & ->)
                    |[_ ->]]]; reflexivity.
Qed.

Lemma verify_calls_watermark calls st :
  last_t (self st) <= last_t (self (verify_calls calls st)).
Proof.
  revert st. induction calls as [|[env token] calls IH]; intros st.
  - simpl. lia.
  - simpl. etransitivity; [|apply IH]. apply verify_token_watermark.
Qed.

Lemma verify_calls_key calls st :
  key (self (verify_calls calls st)) = key (self st).
Proof.
  revert st. induction calls as [|[env token] calls IH]; intros st.
  - reflexivity.
  - simpl. rewrite IH. apply verify_token_key.
Qed.

Lemma accepts_false_above kb last time n off :
  (last < time + off → hotp kb (time + off) 6 ≠ Ok n) →
  accepts kb last time n off = false.
Proof.
  intros H. unfold accepts.
  destruct (time + off >? last) eqn:Hgt; [|reflexivity]. cbn [andb].
  apply Z.gtb_lt in Hgt. specialize (H Hgt).
  destruct (hotp kb (time + off) 6) as [c|e]; [|reflexivity].
  apply Z.eqb_neq. intros ->. apply H. reflexivity.
Qed.

(** C2, as the code has it. Over every run of [verify_token] calls the
    watermark never decreases; after it, a call that accepts does so at a
    step above the earlier watermark whose code is the candidate; once a
    call has accepted a candidate, a later call with the same candidate
    returns false and changes nothing provided no step of its window above
    the new watermark has that same code; and when such a step exists, the
    later call (at a time below 2^63) accepts the earliest one. *)
Theorem watermark_monotone_no_replay :
  (∀ calls st, last_t (self st) <= last_t (self (verify_calls calls st)))
  ∧ (∀ calls st env token st',
       verify_token env token (verify_calls calls st) = (Ok true, st') →
       last_t (self st) < last_t (self st')
       ∧ ∃ n kb, py_int token = Ok n ∧ unhexlify (key (self st)) = Ok kb
                 ∧ hotp kb (last_t (self st')) 6 = Ok n)
  ∧ (∀ env token st st1 n kb env2 tol2,
       verify_token env token st = (Ok true, st1) →
       py_int token = Ok n →
       unhexlify (key (self st)) = Ok kb →
       Settings.__getattr__ (django env2) "OTP_TEXTLOCAL_TOKEN_VALIDITY"
         = Ok (PyInt tol2) →
       now env2 < 2 ^ 64 →
       (∀ s, now env2 - tol2 <= s <= now env2 → last_t (self st1) < s →
             hotp kb s 6 ≠ Ok n) →
       verify_token env2 token st1 = (Ok false, st1))
  ∧ (∀ env token st st1 n kb env2 tol2 s,
       verify_token env token st = (Ok true, st1) →
       py_int token = Ok n →
       unhexlify (key (self st)) = Ok kb →
       Settings.__getattr__ (django env2) "OTP_TEXTLOCAL_TOKEN_VALIDITY"
         = Ok (PyInt tol2) →
       now env2 < 2 ^ 63 →
       now env2 - tol2 <= s <= now env2 → last_t (self st1) < s →
       hotp kb s 6 = Ok n →
       (∀ s', now env2 - tol2 <= s' < s → last_t (self st1) < s' →
              hotp kb s' 6 ≠ Ok n) →
       verify_token env2 token st1 = (Ok true, accepted_at st1 s)
       ∧ last_t (self (accepted_at st1 s)) = s).
Proof.
  assert (Hfirst : ∀ env token st st1 n kb,
            verify_token env token st = (Ok true, st1) →
            py_int token = Ok n → unhexlify (key (self st)) = Ok kb →
            unhexlify (key (self st1)) = Ok kb ∧ -1 <= last_t (self st1)).
  { intros env token st st1 n kb Hrun Hn Hk.
    apply verify_token_outcome in Hrun.
    destruct Hrun as [(n' & kb' & t & _ & _ & _ & _ & _ & Hcode & _ & ->)
                     |[(n' & kb' & t & _ & _ & Hr & _)|[H _]]];
      [|discriminate|congruence].
    apply hotp_inv in Hcode. split; [exact Hk|simpl; lia]. }
  split; [|split; [|split]].
  - apply verify_calls_watermark.
  - intros calls st env token st' Hrun.
    pose proof (verify_calls_watermark calls st) as Hmono.
    pose proof (verify_calls_key calls st) as Hkey.
    apply verify_token_outcome in Hrun.
    destruct Hrun as [(n & kb & t & Hn & Hk & _ & Hlt & _ & Hcode & _ & ->)
                     |[(n & kb & t & _ & _ & Hr & _)|[H _]]];
      [|discriminate|congruence].
    split; [simpl; lia|]. exists n, kb. rewrite <- Hkey.
    repeat split; assumption.
  - intros env token st st1 n kb env2 tol2 Hrun Hn Hk Htol Hnow Hfree.
    destruct (Hfirst _ _ _ _ _ _ Hrun Hn Hk) as [Hk1 Hlast1].
    rewrite (verify_token_find env2 st1 token n kb tol2 Hn Hk1 Htol).
    + replace (find _ _) with (@None Z); [reflexivity|].
      symmetry. apply find_py_range_none. intros off Hoff.
      apply accepts_false_above. intros Habove. apply Hfree; [lia|exact Habove].
    + apply window_probes; [exact Hlast1|exact Hnow].
  - intros env token st st1 n kb env2 tol2 s Hrun Hn Hk Htol Hnow Hs Habove
      Hcode Hearlier.
    destruct (Hfirst _ _ _ _ _ _ Hrun Hn Hk) as [Hk1 Hlast1].
    split; [|reflexivity].
    rewrite (verify_token_find env2 st1 token n kb tol2 Hn Hk1 Htol).
    + assert (Hok : accepts kb (last_t (self st1)) (now env2) n
                      (s - now env2) = true).
      { apply accepts_true.
        - replace (now env2 + (s - now env2)) with s by lia. exact Habove.
        - replace (now env2 + (s - now env2)) with s by lia. exact Hcode. }
      rewrite (find_py_range_some _ (- tol2) 1 (s - now env2));
        [|lia|exact Hok|].
      * rewrite (accepts_bigint _ _ _ _ _ Hok) by lia.
        replace (now env2 + (s - now env2)) with s by lia. reflexivity.
      * intros o Ho. apply accepts_false_above. intros Ha.
        apply Hearlier; [lia|exact Ha].
    + apply window_probes; [exact Hlast1|lia].
Qed.

(** ** Decimal text *)

Lemma digit_val_range c v : digit_val c = Some v → v = code_of c - 48 ∧ 48 <= code_of c <= 57.
Proof.
  unfold digit_val. intros H.
  destruct (Z.leb_spec 48 (code_of c)); destruct (Z.leb_spec (code_of c) 57);
    cbn [andb] in H; try discriminate.
  injection H as <-. lia.
Qed.

Lemma is_digit_range c : is_digit c = true → 48 <= code_of c <= 57.
Proof.
  unfold is_digit. destruct (digit_val c) as [v|] eqn:H; [|discriminate].
  intros _. apply digit_val_range in H. lia.
Qed.

Lemma is_digit_val c : is_digit c = true → digit_val c = Some (code_of c - 48).
Proof.
  unfold is_digit. destruct (digit_val c) as [v|] eqn:H; [|discriminate].
  intros _. apply digit_val_range in H. destruct H as [-> _]. reflexivity.
Qed.

Lemma code_of_digit_char d : 0 <= d <= 9 → code_of (digit_char d) = 48 + d.
Proof.
  intros H. unfold code_of, digit_char. rewrite N_ascii_embedding.
  - lia.
  - change 256%N with (Z.to_N 256). apply Z2N.inj_lt; lia.
Qed.

Lemma is_digit_char d : 0 <= d <= 9 → is_digit (digit_char d) = true.
Proof.
  intros H. unfold is_digit, digit_val. rewrite code_of_digit_char by exact H.
  destruct (Z.leb_spec 48 (48 + d)); destruct (Z.leb_spec (48 + d) 57);
    try lia. reflexivity.
Qed.

Lemma is_digit_not_space c : is_digit c = true → is_space c = false.
Proof.
  intros H. apply is_digit_range in H. unfold is_space.
  destruct (Z.leb_spec 9 (code_of c)); destruct (Z.leb_spec (code_of c) 13);
  destruct (Z.eqb_spec (code_of c) 32);
  destruct (Z.eqb_spec (code_of c) 133); destruct (Z.eqb_spec (code_of c) 160);
    try lia; reflexivity.
Qed.

Lemma is_digit_not_char c (x : ascii) :
  is_digit c = true → is_digit x = false → Ascii.eqb c x = false.
Proof.
  intros Hc Hx. apply Ascii.eqb_neq. intros ->. congruence.
Qed.

Lemma dec_digits_app fuel n acc :
  dec_digits fuel n acc = (dec_digits fuel n [] ++ acc)%list.
Proof.
  revert n acc. induction fuel as [|f IH]; intros n acc; [reflexivity|].
  cbn [dec_digits]. destruct (n / 10 =? 0); [reflexivity|].
  rewrite (IH _ (_ :: acc)), (IH _ [_]), <- app_assoc. reflexivity.
Qed.

Lemma dec_digits_step f n :
  dec_digits (S f) n []
  = if n / 10 =? 0 then [digit_char (n mod 10)]
    else (dec_digits f (n / 10) [] ++ [digit_char (n mod 10)])%list.
Proof.
  cbn [dec_digits]. destruct (n / 10 =? 0); [reflexivity|].
  apply dec_digits_app.
Qed.

Lemma dec_digits_all_digits fuel n :
  forallb is_digit (dec_digits fuel n []) = true.
Proof.
  revert n. induction fuel as [|f IH]; intros n; [reflexivity|].
  assert (Hd : is_digit (digit_char (n mod 10)) = true).
  { apply is_digit_char. pose proof (Z.mod_pos_bound n 10). lia. }
  rewrite dec_digits_step. destruct (n / 10 =? 0).
  - cbn [forallb]. rewrite Hd. reflexivity.
  - rewrite forallb_app, IH. cbn [forallb]. rewrite Hd. reflexivity.
Qed.

Lemma dec_value_app l1 l2 acc :
  dec_value (l1 ++ l2) acc = dec_value l2 (dec_value l1 acc).
Proof. apply fold_left_app. Qed.

Lemma dec_digits_value fuel n :
  0 <= n < 10 ^ Z.of_nat fuel → dec_value (dec_digits fuel n []) 0 = n.
Proof.
  revert n. induction fuel as [|f IH]; intros n Hn.
  - simpl in Hn. simpl. lia.
  - rewrite dec_digits_step.
    assert (Hm : 0 <= n mod 10 <= 9) by (pose proof (Z.mod_pos_bound n 10); lia).
    pose proof (Z.div_mod n 10 ltac:(lia)) as Hdm.
    destruct (Z.eqb_spec (n / 10) 0) as [Hz|Hnz].
    + unfold dec_value. cbn [fold_left]. rewrite code_of_digit_char by exact Hm.
      lia.
    + rewrite dec_value_app, IH.
      * unfold dec_value. cbn [fold_left].
        rewrite code_of_digit_char by exact Hm. lia.
      * replace (Z.of_nat (S f)) with (Z.of_nat f + 1) in Hn by lia.
        rewrite Z.pow_add_r, Z.pow_1_r in Hn by lia.
        split; [apply Z.div_pos; lia|].
        apply Z.div_lt_upper_bound; lia.
Qed.

Lemma dec_digits_length fuel n k :
  0 <= n < 10 ^ Z.of_nat (S k) →
  (1 <= length (dec_digits (S fuel) n []) <= S k)%nat.
Proof.
  revert n k. induction fuel as [|f IH]; intros n k Hn.
  - rewrite dec_digits_step. destruct (n / 10 =? 0); simpl; lia.
  - rewrite dec_digits_step.
    destruct (Z.eqb_spec (n / 10) 0) as [Hz|Hnz]; [simpl; lia|].
    rewrite length_app. cbn [length].
    destruct k as [|k].
    + exfalso. apply Hnz. apply Z.div_small. simpl in Hn. lia.
    + specialize (IH (n / 10) k).
      replace (Z.of_nat (S (S k))) with (Z.of_nat (S k) + 1) in Hn by lia.
      rewrite Z.pow_add_r, Z.pow_1_r in Hn by lia.
      assert (0 <= n / 10 < 10 ^ Z.of_nat (S k)).
      { split; [apply Z.div_pos; lia|]. apply Z.div_lt_upper_bound; lia. }
      specialize (IH H). lia.
Qed.

Lemma dec_of_fuel n : 0 <= n → n < 10 ^ Z.of_nat (S (Z.to_nat (Z.log2 n))).
Proof.
  intros Hn. destruct (Z.eq_dec n 0) as [->|Hnz]; [reflexivity|].
  pose proof (Z.log2_spec n ltac:(lia)) as [_ Hlt].
  pose proof (Z.log2_nonneg n) as Hlog.
  replace (Z.of_nat (S (Z.to_nat (Z.log2 n)))) with (Z.succ (Z.log2 n)) by lia.
  eapply Z.lt_le_trans; [exact Hlt|].
  apply Z.pow_le_mono_l. lia.
Qed.

Lemma dec_of_value n : 0 <= n → dec_value (dec_of n) 0 = n.
Proof.
  intros Hn. unfold dec_of. apply dec_digits_value.
  split; [exact Hn|apply dec_of_fuel; exact Hn].
Qed.

Lemma dec_of_length n :
  0 <= n < 1000000 → (1 <= length (dec_of n) <= 6)%nat.
Proof. intros Hn. unfold dec_of. apply dec_digits_length. simpl. lia. Qed.

Lemma dec_of_nonempty n : dec_of n ≠ [].
Proof.
  unfold dec_of. rewrite dec_digits_step.
  destruct (n / 10 =? 0); [discriminate|].
  intros H. apply app_eq_nil in H. destruct H as [_ H]. discriminate.
Qed.

Lemma lstrip_head c r : is_space c = false → lstrip (c :: r) = c :: r.
Proof. intros H. cbn [lstrip]. rewrite H. reflexivity. Qed.

Lemma strip_digits l :
  l ≠ [] → forallb is_digit l = true → strip l = l.
Proof.
  intros Hne Hall. unfold strip.
  assert (Hl : lstrip l = l).
  { destruct l as [|c r]; [done|]. cbn [forallb] in Hall.
    apply andb_true_iff in Hall as [Hc _].
    apply lstrip_head, is_digit_not_space, Hc. }
  rewrite Hl.
  assert (Hr : lstrip (rev l) = rev l).
  { destruct (rev l) as [|c r] eqn:Hrev.
    - reflexivity.
    - apply lstrip_head, is_digit_not_space.
      rewrite forallb_forall in Hall. apply Hall. apply in_rev.
      rewrite Hrev. left. reflexivity. }
  rewrite Hr. apply rev_involutive.
Qed.

Lemma int_digits_all l acc :
  forallb is_digit l = true → int_digits acc l = Some (dec_value l acc).
Proof.
  revert acc. induction l as [|c r IH]; intros acc Hall; [reflexivity|].
  cbn [forallb] in Hall. apply andb_true_iff in Hall as [Hc Hr].
  cbn [int_digits].
  rewrite (is_digit_not_char c "_" Hc eq_refl), (is_digit_val c Hc).
  rewrite IH by exact Hr. reflexivity.
Qed.

Lemma int_unsigned_all l :
  l ≠ [] → forallb is_digit l = true → int_unsigned l = Some (dec_value l 0).
Proof.
  intros Hne Hall. destruct l as [|c r]; [done|].
  cbn [forallb] in Hall. apply andb_true_iff in Hall as [Hc Hr].
  cbn [int_unsigned]. rewrite (is_digit_val c Hc), int_digits_all by exact Hr.
  reflexivity.
Qed.

Lemma int_of_str_digits l :
  l ≠ [] → forallb is_digit l = true →
  int_of_str (string_of_list_ascii l) = Some (dec_value l 0).
Proof.
  intros Hne Hall. unfold int_of_str.
  rewrite list_ascii_of_string_of_list_ascii, strip_digits by assumption.
  destruct l as [|c r] eqn:Hl; [done|]. rewrite <- Hl in *.
  assert (Hc : is_digit c = true).
  { rewrite Hl in Hall. cbn [forallb] in Hall.
    apply andb_true_iff in Hall as [Hc _]. exact Hc. }
  rewrite (is_digit_not_char c "+" Hc eq_refl).
  rewrite (is_digit_not_char c "-" Hc eq_refl).
  apply int_unsigned_all; assumption.
Qed.

Lemma forallb_repeat_zero k : forallb is_digit (repeat "0"%char k) = true.
Proof. induction k as [|k IH]; [reflexivity|]. cbn [repeat forallb]. rewrite IH. reflexivity. Qed.

Lemma dec_value_repeat_zero k : dec_value (repeat "0"%char k) 0 = 0.
Proof. induction k as [|k IH]; [reflexivity|]. cbn [repeat]. exact IH. Qed.


(** [format(n, '06d')] of a number [n >= 0] is a run of decimal digits
    that denotes [n]; below one million it has exactly six of them. *)
Lemma format_06d_digits n :
  0 <= n →
  ∃ l, format_06d n = string_of_list_ascii l ∧ l ≠ []
       ∧ forallb is_digit l = true ∧ dec_value l 0 = n
       ∧ (n < 1000000 → length l = 6%nat).
Proof.
  intros Hn. unfold format_06d.
  destruct (Z.ltb_spec n 0) as [Hneg|_]; [lia|].
  rewrite Z.abs_eq by exact Hn. cbn [length app].
  eexists. split; [reflexivity|]. repeat split.
  - intros H. apply app_eq_nil in H. destruct H as [_ H].
    exact (dec_of_nonempty n H).
  - rewrite forallb_app, forallb_repeat_zero. unfold dec_of.
    apply dec_digits_all_digits.
  - rewrite dec_value_app, dec_value_repeat_zero. apply dec_of_value, Hn.
  - intros Hlt. rewrite length_app, repeat_length.
    pose proof (dec_of_length n ltac:(lia)). lia.
Qed.

Lemma py_int_format_06d n : 0 <= n → py_int (PyStr (format_06d n)) = Ok n.
Proof.
  intros Hn. destruct (format_06d_digits n Hn) as (l & -> & Hne & Hall & Hval & _).
  cbn [py_int]. rewrite int_of_str_digits by assumption. rewrite Hval.
  reflexivity.
Qed.


(** ** Generated codes *)

Lemma bind_ok {A B} (m : M A) (k : A → M B) s a s' :
  m s = (Ok a, s') → bind m k s = k a s'.
Proof. intros H. unfold bind. rewrite H. reflexivity. Qed.

Lemma bind_raise {A B} (m : M A) (k : A → M B) s e s' :
  m s = (Raise e, s') → bind m k s = (Raise e, s').
Proof. intros H. unfold bind. rewrite H. reflexivity. Qed.

Lemma current_token_eq env st kb c :
  unhexlify (key (self st)) = Ok kb →
  hotp kb (now env) 6 = Ok c →
  current_token env st = (Ok (format_06d c), st).
Proof.
  intros Hk Hc. unfold current_token.
  rewrite (bind_ok _ _ _ _ _ (totp_obj_eq env st kb Hk)).
  unfold bind, lift, ret. rewrite totp_at_token, Z.add_0_r, Hc. reflexivity.
Qed.

Lemma current_token_inv env st tok st' :
  current_token env st = (Ok tok, st') →
  st' = st ∧ ∃ kb c, unhexlify (key (self st)) = Ok kb
                     ∧ hotp kb (now env) 6 = Ok c ∧ tok = format_06d c.
Proof.
  unfold current_token. intros H.
  destruct (unhexlify (key (self st))) as [kb|e] eqn:Hk.
  2:{ rewrite (bind_raise _ _ _ _ _ (totp_obj_raise env st e Hk)) in H.
      discriminate. }
  rewrite (bind_ok _ _ _ _ _ (totp_obj_eq env st kb Hk)) in H.
  unfold bind, lift, ret in H. rewrite totp_at_token, Z.add_0_r in H.
  destruct (hotp kb (now env) 6) as [c|e] eqn:Hc; [|discriminate].
  injection H as <- <-. split; [reflexivity|]. exists kb, c. auto.
Qed.

Lemma bind_assoc {A B C} (m : M A) (f : A → M B) (g : B → M C) s :
  bind (bind m f) g s = bind m (fun a => bind (f a) g) s.
Proof. unfold bind. destruct (m s) as [[a|e] s1]; reflexivity. Qed.

Lemma bind_ext {A B} (m : M A) (f g : A → M B) s :
  (∀ a s1, f a s1 = g a s1) → bind m f s = bind m g s.
Proof. intros H. unfold bind. destruct (m s) as [[a|e] s1]; [apply H|reflexivity]. Qed.

Lemma generate_challenge_split env st :
  generate_challenge env st
  = bind (current_token env) (challenge_with env) st.
Proof.
  unfold generate_challenge, current_token. symmetry.
  rewrite bind_assoc. apply bind_ext. intros totp s1.
  rewrite bind_assoc. apply bind_ext. intros code s2. reflexivity.
Qed.

Lemma generate_challenge_with env st tok :
  current_token env st = (Ok tok, st) →
  generate_challenge env st = challenge_with env tok st.
Proof.
  intros Htok. rewrite generate_challenge_split.
  apply (bind_ok _ _ _ _ _ Htok).
Qed.

(** C3, as the code has it. On a device whose watermark is below the
    step of generation, the code generated at time T verifies at every
    time in [T, T + tolerance] (below 2^63, so that the accepted step
    can be stored); at time T + tolerance + 1 it is refused
    provided no step of that window (T+1 .. T+tolerance+1) has the same
    code; and it is refused one second before T provided no step of that
    window above the watermark has the same code. *)
Theorem generated_code_window gen ver st kb c tol :
  unhexlify (key (self st)) = Ok kb →
  hotp kb (now gen) 6 = Ok c →
  Settings.__getattr__ (django ver) "OTP_TEXTLOCAL_TOKEN_VALIDITY"
    = Ok (PyInt tol) →
  -1 <= last_t (self st) →
  now ver < 2 ^ 64 →
  current_token gen st = (Ok (format_06d c), st)
  ∧ (last_t (self st) < now gen → now gen <= now ver <= now gen + tol →
     now ver < 2 ^ 63 →
     fst (verify_token ver (PyStr (format_06d c)) st) = Ok true)
  ∧ (now ver = now gen + tol + 1 →
     (∀ s, now gen < s <= now ver → hotp kb s 6 ≠ Ok c) →
     verify_token ver (PyStr (format_06d c)) st = (Ok false, st))
  ∧ (now ver = now gen - 1 →
     (∀ s, now ver - tol <= s <= now ver → last_t (self st) < s →
           hotp kb s 6 ≠ Ok c) →
     verify_token ver (PyStr (format_06d c)) st = (Ok false, st)).
Proof.
  intros Hk Hc Htol Hlast Hnow.
  apply hotp_inv in Hc as Hrange. destruct Hrange as [_ Hcr].
  assert (Hparse : py_int (PyStr (format_06d c)) = Ok c)
    by (apply py_int_format_06d; lia).
  pose proof (verify_token_find ver st _ c kb tol Hparse Hk Htol
                (window_probes _ _ _ Hlast Hnow)) as Heq.
  split; [exact (current_token_eq gen st kb c Hk Hc)|]. split; [|split].
  - intros Hfresh Hin Hfit. rewrite Heq.
    destruct (find _ _) as [off|] eqn:Hfind.
    { apply find_py_range_first in Hfind. destruct Hfind as (Hoff & Hok & _).
      rewrite (accepts_bigint _ _ _ _ _ Hok) by lia. reflexivity. }
    rewrite find_py_range_none in Hfind.
    specialize (Hfind (now gen - now ver) ltac:(lia)).
    rewrite accepts_true in Hfind; [discriminate| |].
    + replace (now ver + (now gen - now ver)) with (now gen) by lia.
      exact Hfresh.
    + replace (now ver + (now gen - now ver)) with (now gen) by lia.
      exact Hc.
  - intros Hlate Hfree. rewrite Heq.
    replace (find _ _) with (@None Z); [reflexivity|].
    symmetry. apply find_py_range_none. intros off Hoff.
    apply accepts_false_above. intros _. apply Hfree. lia.
  - intros Hearly Hfree. rewrite Heq.
    replace (find _ _) with (@None Z); [reflexivity|].
    symmetry. apply find_py_range_none. intros off Hoff.
    apply accepts_false_above. intros Habove. apply Hfree; [lia|exact Habove].
Qed.

(** ** Malformed candidates and equal candidates *)

(** C4. A candidate that [int] rejects makes [verify_token] return false
    with the device, the stored rows, the log and the outbox untouched;
    this holds for every device and time, also where building the
    generator or calling the engine would raise, so neither is reached,
    and no exception escapes. *)
Theorem verify_token_malformed env token st :
  is_ok (py_int token) = false →
  verify_token env token st = (Ok false, st).
Proof.
  intros H. unfold verify_token.
  destruct (py_int token) as [n|e]; [discriminate|reflexivity].
Qed.

(** C9. [verify_token] looks at the candidate only through [int]: two
    candidates that parse to the same integer give the same result and the
    same state; so the texts 012345, 12345, 12345 between spaces and
    +12345 verify exactly as the integer 12345 does. *)
Theorem verify_token_parsed_equal env st :
  (∀ c1 c2 n, py_int c1 = Ok n → py_int c2 = Ok n →
     verify_token env c1 st = verify_token env c2 st)
  ∧ (∀ c, In c [PyStr "012345"; PyStr "12345"; PyStr " 12345 ";
                PyStr "+12345"; PyInt 12345] →
     verify_token env c st = verify_token env (PyInt 12345) st).
Proof.
  assert (Heq : ∀ c1 c2 n, py_int c1 = Ok n → py_int c2 = Ok n →
                  verify_token env c1 st = verify_token env c2 st).
  { intros c1 c2 n H1 H2. unfold verify_token. rewrite H1, H2. reflexivity. }
  split; [exact Heq|].
  intros c Hin. apply (Heq c (PyInt 12345) 12345); [|reflexivity].
  repeat (destruct Hin as [<-|Hin]; [vm_compute; reflexivity|]).
  destruct Hin.
Qed.

(** ** Effects of [generate_challenge] *)

Lemma keeps_ret {A} (a : A) : keeps_device (ret a).
Proof. intros s. split; reflexivity. Qed.

Lemma keeps_raise {A} e : keeps_device (@raise A e).
Proof. intros s. split; reflexivity. Qed.

Lemma keeps_lift {A} (r : result A) : keeps_device (lift r).
Proof. intros s. split; reflexivity. Qed.

Lemma keeps_get_self : keeps_device get_self.
Proof. intros s. split; reflexivity. Qed.

Lemma keeps_setting env name : keeps_device (setting env name).
Proof. intros s. split; reflexivity. Qed.

Lemma keeps_logger e : keeps_device (logger e).
Proof. intros s. split; reflexivity. Qed.

Lemma keeps_requests_post env req : keeps_device (requests_post env req).
Proof.
  intros s. unfold requests_post. destruct (network env req); split; reflexivity.
Qed.

Lemma keeps_bind {A B} (m : M A) (k : A → M B) :
  keeps_device m → (∀ a, keeps_device (k a)) → keeps_device (bind m k).
Proof.
  intros Hm Hk s. unfold bind. specialize (Hm s).
  destruct (m s) as [[a|e] s1]; simpl in Hm.
  - destruct (Hk a s1) as [H1 H2]. destruct Hm as [H3 H4].
    split; congruence.
  - exact Hm.
Qed.

Create HintDb keeps.
#[local] Hint Resolve keeps_ret keeps_raise keeps_lift keeps_get_self
  keeps_setting keeps_logger keeps_requests_post : keeps.

Ltac keeps_step :=
  match goal with
  | |- keeps_device (bind _ _) => apply keeps_bind; [|intros ?]
  | |- keeps_device (if ?b then _ else _) => destruct b
  | |- keeps_device (match ?x with _ => _ end) => destruct x
  | |- keeps_device _ => solve [auto with keeps]
  end.

Lemma keeps_validate_config env : keeps_device (_validate_config env).
Proof. unfold _validate_config. repeat keeps_step. Qed.

Lemma keeps_deliver_token env token : keeps_device (_deliver_token env token).
Proof.
  unfold _deliver_token. apply keeps_bind; [apply keeps_validate_config|].
  intros _. repeat keeps_step.
Qed.

(** C7. Whatever its outcome, [generate_challenge] leaves every field of
    the device object (watermark, key, number, confirmed flag and the
    rest) and every stored row as they were. *)
Theorem generate_challenge_keeps_device env st :
  self (snd (generate_challenge env st)) = self st
  ∧ db (snd (generate_challenge env st)) = db st.
Proof.
  revert st. change (keeps_device (generate_challenge env)).
  unfold generate_challenge, totp_obj, bin_key.
  repeat (first [apply keeps_deliver_token | keeps_step]).
Qed.

(** ** Delivery *)

Lemma delivery_rejected_false j :
  delivery_rejected j = Ok false ↔
  ∃ f, j = JObj f ∧ f !! "status" = Some (JStr "success").
Proof.
  unfold delivery_rejected, json_contains_status, json_getitem_status.
  split.
  - intros H. destruct j as [| | | |l|f]; try discriminate.
    + destruct (contains "status" s); discriminate.
    + destruct (existsb _ l); discriminate.
    + exists f. split; [reflexivity|].
      destruct (f !! "status") as [v|] eqn:Hv.
      * rewrite bool_decide_eq_true_2 in H by (eexists; reflexivity).
        injection H as Hs. apply negb_false_iff in Hs.
        destruct v; try discriminate. apply String.eqb_eq in Hs. subst.
        reflexivity.
      * rewrite bool_decide_eq_false_2 in H; [discriminate|].
        intros [? ?]. discriminate.
  - intros (f & -> & Hf). rewrite Hf.
    rewrite bool_decide_eq_true_2 by (eexists; reflexivity). reflexivity.
Qed.

Lemma raise_for_status_ok r :
  raise_for_status r = Ok tt ↔ status_code r < 400 ∨ 600 <= status_code r.
Proof.
  unfold raise_for_status.
  destruct (Z.leb_spec 400 (status_code r)) as [Hlo|Hlo];
    destruct (Z.ltb_spec (status_code r) 600) as [Hhi|Hhi]; cbn [andb]; split;
    intros Hr; try discriminate; try reflexivity; lia.
Qed.

Lemma validate_config_ok env st :
  is_ok (fst (_validate_config env st)) = true →
  ∃ api_key url sender, delivery_configured env api_key url sender.
Proof.
  unfold _validate_config, delivery_configured, bind, setting, lift, raise, ret.
  intros H.
  destruct (Settings.__getattr__ (django env) "OTP_TEXTLOCAL_API_KEY")
    as [k|] eqn:Hk; [|discriminate].
  destruct (is_none k) eqn:Hkn; [discriminate|].
  destruct (Settings.__getattr__ (django env) "OTP_TEXTLOCAL_URL")
    as [u|] eqn:Hu; [|discriminate].
  destruct (is_none u) eqn:Hun; [discriminate|].
  destruct (Settings.__getattr__ (django env) "OTP_TEXTLOCAL_SENDER")
    as [s|] eqn:Hs; [|discriminate].
  destruct (is_none s) eqn:Hsn; [discriminate|].
  exists k, u, s. auto 10.
Qed.

Lemma validate_config_eq env st api_key url sender :
  delivery_configured env api_key url sender →
  _validate_config env st = (Ok tt, st).
Proof.
  intros (Hk & Hkn & Hu & Hun & Hs & Hsn).
  unfold _validate_config, bind, setting, lift, raise, ret.
  rewrite Hk, Hkn, Hu, Hun, Hs, Hsn. reflexivity.
Qed.

(** After validation [_deliver_token] posts one request and judges the
    answer. *)
Lemma deliver_token_configured env msg st api_key url sender :
  delivery_configured env api_key url sender →
  let req := mkRequest url sender msg (number (self st)) api_key in
  let sent := mkState (self st) (db st) (log st) (outbox st ++ [req]) in
  _deliver_token env msg st =
  match network env req with
  | TransportFailure => (Raise ConnectionError, sent)
  | Responded r =>
      match raise_for_status r with
      | Raise e =>
          (Raise e, mkState (self st) (db st) (log st ++ [LogException e])
                            (outbox st ++ [req]))
      | Ok _ =>
          match response_json r with
          | Raise e => (Raise e, sent)
          | Ok j =>
              match delivery_rejected j with
              | Raise e => (Raise e, sent)
              | Ok true =>
                  (Raise (DeliveryException j),
                   mkState (self st) (db st) (log st ++ [LogError j])
                           (outbox st ++ [req]))
              | Ok false => (Ok tt, sent)
              end
          end
      end
  end.
Proof.
  intros Hc req sent. unfold _deliver_token.
  rewrite (bind_ok _ _ _ _ _ (validate_config_eq env st _ _ _ Hc)).
  destruct Hc as (Hk & _ & Hu & _ & Hs & _).
  rewrite (bind_ok _ _ _ _ _ (setting_eq _ _ _ _ Hu)).
  rewrite (bind_ok _ _ _ _ _ (setting_eq _ _ _ _ Hs)).
  unfold bind at 1, get_self at 1.
  rewrite (bind_ok _ _ _ _ _ (setting_eq _ _ _ _ Hk)).
  fold req. unfold bind at 1, requests_post at 1.
  destruct (network env req) as [|r]; [reflexivity|]. fold sent.
  unfold bind at 1.
  destruct (raise_for_status r) as [[]|e]; [|reflexivity].
  unfold ret at 1. unfold bind at 1, lift at 1.
  destruct (response_json r) as [j|e]; [|reflexivity].
  unfold bind at 1, lift at 1.
  destruct (delivery_rejected j) as [[|]|e]; reflexivity.
Qed.

(** C8, as the code has it. [_deliver_token] returns normally exactly
    when the settings are in place, the provider answered, the status is
    outside the error classes 400..599 that [raise_for_status] rejects, and
    the JSON body is an object whose [status] field is the text
    [success]; in every other case it raises. *)
Theorem deliver_token_success env msg st :
  is_ok (fst (_deliver_token env msg st)) = true ↔
  ∃ api_key url sender r f,
    delivery_configured env api_key url sender
    ∧ network env (mkRequest url sender msg (number (self st)) api_key)
      = Responded r
    ∧ (status_code r < 400 ∨ 600 <= status_code r)
    ∧ body r = Some (JObj f)
    ∧ f !! "status" = Some (JStr "success").
Proof.
  split.
  - intros H.
    assert (Hv : is_ok (fst (_validate_config env st)) = true).
    { unfold _deliver_token, bind in H.
      destruct (_validate_config env st) as [[[]|e] s]; [reflexivity|].
      discriminate. }
    apply validate_config_ok in Hv. destruct Hv as (k & u & s & Hc).
    rewrite (deliver_token_configured env msg st k u s Hc) in H.
    destruct (network env _) as [|r] eqn:Hnet; [discriminate|].
    destruct (raise_for_status r) as [[]|e] eqn:Hst; [|discriminate].
    unfold response_json in H.
    destruct (body r) as [j|] eqn:Hbody; [|discriminate].
    destruct (delivery_rejected j) as [[|]|e] eqn:Hrej; try discriminate.
    apply delivery_rejected_false in Hrej. destruct Hrej as (f & -> & Hf).
    exists k, u, s, r, f. apply raise_for_status_ok in Hst. auto 10.
  - intros (k & u & s & r & f & Hc & Hnet & Hst & Hbody & Hf).
    rewrite (deliver_token_configured env msg st k u s Hc). rewrite Hnet.
    apply raise_for_status_ok in Hst. rewrite Hst.
    unfold response_json. rewrite Hbody.
    assert (Hrej : delivery_rejected (JObj f) = Ok false).
    { apply delivery_rejected_false. exists f. auto. }
    rewrite Hrej. reflexivity.
Qed.

(** ** Challenge generation *)

Lemma bind_inv_ok {A B} (m : M A) (k : A → M B) s b s' :
  bind m k s = (Ok b, s') →
  ∃ a s1, m s = (Ok a, s1) ∧ k a s1 = (Ok b, s').
Proof.
  unfold bind. destruct (m s) as [[a|e] s1]; [|discriminate].
  intros H. exists a, s1. auto.
Qed.

Lemma setting_inv env name s v s1 :
  setting env name s = (Ok v, s1) →
  Settings.__getattr__ (django env) name = Ok v ∧ s1 = s.
Proof. unfold setting, lift. intros H. injection H as H <-. auto. Qed.

Lemma lift_inv {A} (r : result A) s a s1 :
  lift r s = (Ok a, s1) → r = Ok a ∧ s1 = s.
Proof. unfold lift. intros H. injection H as H <-. auto. Qed.


Lemma getattr_absent django name :
  django !! name = None → Settings._defaults !! name = None →
  Settings.__getattr__ django name = Raise (AttributeError name).
Proof. intros H1 H2. unfold Settings.__getattr__. rewrite H1, H2. reflexivity. Qed.



Lemma generate_challenge_logged env st tok nd template message ct ack :
  current_token env st = (Ok tok, st) →
  Settings.__getattr__ (django env) "OTP_TEXTLOCAL_TOKEN_TEMPLATE"
    = Ok template →
  str_format template tok = Ok message →
  Settings.__getattr__ (django env) "OTP_TEXTLOCAL_NO_DELIVERY" = Ok nd →
  py_bool nd = true →
  Settings.__getattr__ (django env) "OTP_TEXTLOCAL_CHALLENGE_MESSAGE"
    = Ok ct →
  str_format ct tok = Ok ack →
  generate_challenge env st = (Ok ack, logged st message).
Proof.
  intros Htok Ht Hm Hnd Hb Hct Hack.
  rewrite (generate_challenge_with env st tok Htok). unfold challenge_with.
  rewrite (bind_ok _ _ _ _ _ (setting_eq _ _ _ _ Ht)).
  unfold bind at 1, lift at 1. rewrite Hm.
  rewrite (bind_ok _ _ _ _ _ (setting_eq _ _ _ _ Hnd)).
  rewrite Hb. unfold bind at 1, logger at 1.
  rewrite (bind_ok _ _ _ _ _ (setting_eq _ _ _ _ Hct)).
  unfold bind, lift, ret. rewrite Hack. reflexivity.
Qed.

Lemma generate_challenge_delivering env st tok nd template message :
  current_token env st = (Ok tok, st) →
  Settings.__getattr__ (django env) "OTP_TEXTLOCAL_TOKEN_TEMPLATE"
    = Ok template →
  str_format template tok = Ok message →
  Settings.__getattr__ (django env) "OTP_TEXTLOCAL_NO_DELIVERY" = Ok nd →
  py_bool nd = false →
  generate_challenge env st
  = match _deliver_token env message st with
    | (Ok _, s1) =>
        match Settings.__getattr__ (django env)
                "OTP_TEXTLOCAL_CHALLENGE_MESSAGE" with
        | Ok ct =>
            match str_format ct tok with
            | Ok ack => (Ok ack, s1)
            | Raise e => (Raise e, s1)
            end
        | Raise e => (Raise e, s1)
        end
    | (Raise e, s1) => (Raise e, s1)
    end.
Proof.
  intros Htok Ht Hm Hnd Hb.
  rewrite (generate_challenge_with env st tok Htok). unfold challenge_with.
  rewrite (bind_ok _ _ _ _ _ (setting_eq _ _ _ _ Ht)).
  unfold bind at 1, lift at 1. rewrite Hm.
  rewrite (bind_ok _ _ _ _ _ (setting_eq _ _ _ _ Hnd)).
  rewrite Hb. unfold bind at 1.
  destruct (_deliver_token env message st) as [[[]|e] s1]; [|reflexivity].
  unfold bind at 1, setting at 1, lift at 1.
  destruct (Settings.__getattr__ (django env) "OTP_TEXTLOCAL_CHALLENGE_MESSAGE")
    as [ct|e]; [|reflexivity].
  unfold bind, lift, ret. destruct (str_format ct tok); reflexivity.
Qed.

Lemma deliver_token_outbox env msg st api_key url sender :
  delivery_configured env api_key url sender →
  outbox (snd (_deliver_token env msg st))
  = (outbox st ++ [mkRequest url sender msg (number (self st)) api_key])%list.
Proof.
  intros Hc. rewrite (deliver_token_configured env msg st _ _ _ Hc).
  destruct (network env _) as [|r]; [reflexivity|].
  destruct (raise_for_status r) as [[]|e]; [|reflexivity].
  destruct (response_json r) as [j|e]; [|reflexivity].
  destruct (delivery_rejected j) as [[|]|e]; reflexivity.
Qed.

Lemma generate_challenge_return env st tok ack st' :
  current_token env st = (Ok tok, st) →
  generate_challenge env st = (Ok ack, st') →
  ∃ ct, Settings.__getattr__ (django env) "OTP_TEXTLOCAL_CHALLENGE_MESSAGE"
        = Ok ct ∧ str_format ct tok = Ok ack.
Proof.
  intros Htok Hrun.
  rewrite (generate_challenge_with env st tok Htok) in Hrun.
  unfold challenge_with in Hrun.
  apply bind_inv_ok in Hrun as (template & s1 & _ & Hrun).
  apply bind_inv_ok in Hrun as (message & s2 & _ & Hrun).
  apply bind_inv_ok in Hrun as (nd & s3 & _ & Hrun).
  apply bind_inv_ok in Hrun as (u & s4 & _ & Hrun).
  apply bind_inv_ok in Hrun as (ct & s5 & Hct & Hrun).
  apply bind_inv_ok in Hrun as (ack' & s6 & Hack & Hrun).
  apply setting_inv in Hct as [Hct _]. apply lift_inv in Hack as [Hack _].
  unfold ret in Hrun. injection Hrun as <- _.
  exists ct. auto.
Qed.


(** C10. With no-delivery mode on, [generate_challenge] logs the message
    and returns the acknowledgment without posting anything, whatever the
    delivery settings are; with the three of them absent the validation it
    skips would have raised. *)
Theorem no_delivery_skips_validation env st tok nd template message ct ack :
  current_token env st = (Ok tok, st) →
  Settings.__getattr__ (django env) "OTP_TEXTLOCAL_NO_DELIVERY" = Ok nd →
  py_bool nd = true →
  Settings.__getattr__ (django env) "OTP_TEXTLOCAL_TOKEN_TEMPLATE"
    = Ok template →
  str_format template tok = Ok message →
  Settings.__getattr__ (django env) "OTP_TEXTLOCAL_CHALLENGE_MESSAGE"
    = Ok ct →
  str_format ct tok = Ok ack →
  generate_challenge env st = (Ok ack, logged st message)
  ∧ outbox (snd (generate_challenge env st)) = outbox st
  ∧ (django env !! "OTP_TEXTLOCAL_URL" = None →
     django env !! "OTP_TEXTLOCAL_API_KEY" = None →
     django env !! "OTP_TEXTLOCAL_SENDER" = None →
     is_ok (fst (_validate_config env st)) = false).
Proof.
  intros Htok Hnd Hb Ht Hm Hct Hack.
  pose proof (generate_challenge_logged env st tok nd template message ct ack
                Htok Ht Hm Hnd Hb Hct Hack) as Hrun.
  split; [exact Hrun|]. split; [rewrite Hrun; reflexivity|].
  intros _ Hk _. unfold _validate_config, bind, setting, lift.
  rewrite (getattr_absent _ _ Hk eq_refl). reflexivity.
Qed.

Lemma no_delivery_skips_validation_witness :
  generate_challenge (mkEnv 1420099200 test_settings offline) (fresh alice)
  = (Ok "924502", logged (fresh alice) "924502").
Proof.
  apply (no_delivery_skips_validation
           (mkEnv 1420099200 test_settings offline) (fresh alice) "924502"
           (PyBool true) (PyStr "{token}") "924502" (PyStr "{token}") "924502");
    vm_compute; reflexivity.
Defined.

(** When delivery is on and a delivery setting is not defined at all,
    reading it raises [AttributeError]. *)
Lemma generate_challenge_setting_absent env st tok nd template message :
  current_token env st = (Ok tok, st) →
  Settings.__getattr__ (django env) "OTP_TEXTLOCAL_TOKEN_TEMPLATE"
    = Ok template →
  str_format template tok = Ok message →
  Settings.__getattr__ (django env) "OTP_TEXTLOCAL_NO_DELIVERY" = Ok nd →
  py_bool nd = false →
  django env !! "OTP_TEXTLOCAL_API_KEY" = None →
  generate_challenge env st
  = (Raise (AttributeError "OTP_TEXTLOCAL_API_KEY"), st).
Proof.
  intros Htok Ht Hm Hnd Hb Hk.
  rewrite (generate_challenge_delivering env st tok nd template message
             Htok Ht Hm Hnd Hb).
  unfold _deliver_token, _validate_config. unfold bind, setting, lift.
  rewrite (getattr_absent _ _ Hk eq_refl). reflexivity.
Qed.

(** X17. When delivery is on and the three settings are defined but one
    of them is [None], [generate_challenge] raises [ImproperlyConfigured]
    with the state unchanged: nothing is posted and nothing is logged. *)
Lemma generate_challenge_setting_none env st tok nd template message k u s :
  current_token env st = (Ok tok, st) →
  Settings.__getattr__ (django env) "OTP_TEXTLOCAL_TOKEN_TEMPLATE"
    = Ok template →
  str_format template tok = Ok message →
  Settings.__getattr__ (django env) "OTP_TEXTLOCAL_NO_DELIVERY" = Ok nd →
  py_bool nd = false →
  Settings.__getattr__ (django env) "OTP_TEXTLOCAL_API_KEY" = Ok k →
  Settings.__getattr__ (django env) "OTP_TEXTLOCAL_URL" = Ok u →
  Settings.__getattr__ (django env) "OTP_TEXTLOCAL_SENDER" = Ok s →
  is_none k || is_none u || is_none s = true →
  ∃ msg, generate_challenge env st = (Raise (ImproperlyConfigured msg), st).
Proof.
  intros Htok Ht Hm Hnd Hb Hk Hu Hs Hnone.
  rewrite (generate_challenge_delivering env st tok nd template message
             Htok Ht Hm Hnd Hb).
  unfold _deliver_token, _validate_config. unfold bind, setting, lift, raise.
  rewrite Hk. destruct (is_none k); [eexists; reflexivity|].
  rewrite Hu. destruct (is_none u); [eexists; reflexivity|].
  rewrite Hs. destruct (is_none s); [eexists; reflexivity|].
  discriminate.
Qed.

(** C6. With delivery on and none of the three delivery settings defined,
    [generate_challenge] raises [AttributeError] for the first setting it
    reads, not [ImproperlyConfigured]; nothing is posted. *)
Theorem generate_challenge_unset_delivery_settings :
  generate_challenge (mkEnv 1420099200 ∅ offline) (fresh alice)
  = (Raise (AttributeError "OTP_TEXTLOCAL_API_KEY"), fresh alice).
Proof. vm_compute. reflexivity. Qed.

(** ** Instances on the fixtures *)

(** At 1420125597 the code 430416 belongs to the steps 1420125590 and
    1420125597; the scan takes the older one. *)
Lemma verify_token_first_offset_witness :
  verify_token (mkEnv 1420125597 ∅ offline) (PyStr "430416") (fresh alice)
  = (Ok true, accepted_at (fresh alice) 1420125590).
Proof.
  pose proof (find_py_range_first
                (accepts alice_key (-1) 1420125597 430416) (-30) 1 (-7)
                ltac:(vm_compute; reflexivity)) as (Hoff & Hok & Hbefore).
  destruct (verify_token_first_offset
              (mkEnv 1420125597 ∅ offline) (fresh alice) (PyStr "430416")
              430416 alice_key 30
              ltac:(vm_compute; reflexivity) ltac:(vm_compute; reflexivity)
              ltac:(vm_compute; reflexivity) ltac:(simpl; lia)
              ltac:(simpl; lia)) as [Hfirst _].
  destruct (Hfirst (-7) ltac:(lia) Hok Hbefore) as (st' & Hrun & -> & _).
  exact Hrun.
Defined.

(** test_code_reuse: the code of the current step is refused the second
    time; and the code 430416, accepted at step 1420125590, is accepted
    again at 1420125597, the next step that has it. *)
Lemma watermark_monotone_no_replay_witness :
  verify_token (mkEnv 1420099200 test_settings offline) (PyStr "924502")
               (accepted_at (fresh alice) 1420099200)
  = (Ok false, accepted_at (fresh alice) 1420099200)
  ∧ verify_token (mkEnv 1420125597 test_settings offline) (PyStr "430416")
                 (accepted_at (fresh alice) 1420125590)
    = (Ok true, accepted_at (accepted_at (fresh alice) 1420125590) 1420125597).
Proof.
  destruct watermark_monotone_no_replay as (_ & _ & Hreplay & Hlater).
  split.
  - apply (Hreplay (mkEnv 1420099200 test_settings offline) (PyStr "924502")
                   (fresh alice) _ 924502 alice_key
                   (mkEnv 1420099200 test_settings offline) 30).
    + vm_compute. reflexivity.
    + vm_compute. reflexivity.
    + vm_compute. reflexivity.
    + vm_compute. reflexivity.
    + simpl. lia.
    + simpl. intros s Hs Habove. lia.
  - apply (Hlater (mkEnv 1420125597 test_settings offline) (PyStr "430416")
                  (fresh alice) _ 430416 alice_key
                  (mkEnv 1420125597 test_settings offline) 30 1420125597).
    + vm_compute. reflexivity.
    + vm_compute. reflexivity.
    + vm_compute. reflexivity.
    + vm_compute. reflexivity.
    + simpl. lia.
    + simpl. lia.
    + simpl. lia.
    + vm_compute. reflexivity.
    + simpl. intros s' Hs' Habove.
      assert (Hcases : s' = 1420125591 ∨ s' = 1420125592 ∨ s' = 1420125593
                       ∨ s' = 1420125594 ∨ s' = 1420125595
                       ∨ s' = 1420125596) by lia.
      repeat (destruct Hcases as [->|Hcases]; [vm_compute; discriminate|]).
      subst s'. vm_compute. discriminate.
Defined.

(** The code 430416 of step 1420125590 is accepted, and accepted again
    at once for step 1420125597. *)
Lemma same_code_accepted_twice :
  let env := mkEnv 1420125597 test_settings offline in
  let st1 := accepted_at (fresh alice) 1420125590 in
  fst (generate_challenge (mkEnv 1420125590 test_settings offline)
                          (fresh alice)) = Ok "430416"
  ∧ verify_token env (PyStr "430416") (fresh alice) = (Ok true, st1)
  ∧ verify_token env (PyStr "430416") st1
    = (Ok true, accepted_at st1 1420125597).
Proof. vm_compute. repeat split; reflexivity. Qed.

(** test_barely_made_it. *)
Lemma generated_code_window_witness :
  fst (verify_token (mkEnv 1420099230 test_settings offline)
                    (PyStr (format_06d 924502)) (fresh alice)) = Ok true.
Proof.
  destruct (generated_code_window
              (mkEnv 1420099200 test_settings offline)
              (mkEnv 1420099230 test_settings offline)
              (fresh alice) alice_key 924502 30
              ltac:(vm_compute; reflexivity) ltac:(vm_compute; reflexivity)
              ltac:(vm_compute; reflexivity) ltac:(simpl; lia)
              ltac:(simpl; lia)) as (_ & Hin & _).
  apply Hin; simpl; lia.
Defined.

(** The code generated at 1420125590 is accepted 31 seconds later, and
    the code generated at 1420125597 is accepted one second earlier. *)
Lemma code_accepted_outside_window :
  fst (generate_challenge (mkEnv 1420125590 test_settings offline)
                          (fresh alice)) = Ok "430416"
  ∧ fst (verify_token (mkEnv (1420125590 + 30 + 1) test_settings offline)
                      (PyStr "430416") (fresh alice)) = Ok true
  ∧ fst (generate_challenge (mkEnv (1420125596 + 1) test_settings offline)
                            (fresh alice)) = Ok "430416"
  ∧ fst (verify_token (mkEnv 1420125596 test_settings offline)
                      (PyStr "430416") (fresh alice)) = Ok true.
Proof. vm_compute. repeat split; reflexivity. Qed.

(** A candidate that is not a number, on a device whose key does not
    even decode. *)
Lemma verify_token_malformed_witness :
  let st := fresh (mkDevice 2 2 "" true "test" "not hex" (-1)) in
  verify_token (mkEnv 1420099200 ∅ offline) (PyStr "12a456") st
  = (Ok false, st).
Proof.
  apply (verify_token_malformed (mkEnv 1420099200 ∅ offline) (PyStr "12a456")).
  vm_compute. reflexivity.
Defined.

(** The code of step 1420331764 is 019968. *)
Lemma verify_token_parsed_equal_witness :
  verify_token (mkEnv 1420331764 ∅ offline) (PyStr "019968") (fresh alice)
  = verify_token (mkEnv 1420331764 ∅ offline) (PyStr " 19968 ") (fresh alice).
Proof.
  destruct (verify_token_parsed_equal (mkEnv 1420331764 ∅ offline)
              (fresh alice)) as [Heq _].
  apply (Heq (PyStr "019968") (PyStr " 19968 ") 19968);
    vm_compute; reflexivity.
Defined.


(** A 200 answer with the success marker. *)
Lemma deliver_token_success_witness :
  is_ok (fst (_deliver_token
                (mkEnv 1420099200 textlocal_settings (answers 200 success_body))
                "924502" (fresh alice))) = true.
Proof.
  apply deliver_token_success.
  exists (PyStr "k"), (PyStr "https://api.textlocal.in/send/"),
         (PyStr "TXTLCL"), (mkResponse 200 (Some success_body)),
         {[ "status" := JStr "success" ]}.
  repeat split; try (vm_compute; reflexivity). left. simpl. lia.
Defined.

(** An answer with status 300 and the success marker is taken as a
    success. *)
Lemma redirect_status_accepted :
  _deliver_token
    (mkEnv 1420099200 textlocal_settings (answers 300 success_body))
    "924502" (fresh alice)
  = (Ok tt,
     mkState alice {[ 1 := alice ]} []
       [mkRequest (PyStr "https://api.textlocal.in/send/") (PyStr "TXTLCL")
                  "924502" "test" (PyStr "k")]).
Proof. vm_compute. reflexivity. Qed.

(** * Further properties *)

(** ** Keys *)

Lemma string_pair_ind (P : string → Prop) :
  P EmptyString → (∀ a, P (String a EmptyString)) →
  (∀ a b r, P r → P (String a (String b r))) → ∀ s, P s.
Proof.
  intros H0 H1 H2.
  assert (H : ∀ s, P s ∧ ∀ a, P (String a s)).
  { induction s as [|c s [IHs IHc]]; split; auto. }
  intros s. apply H.
Qed.

Lemma hex_val_range c v : hex_val c = Some v → 0 <= v < 16.
Proof.
  unfold hex_val. intros H.
  destruct (Z.leb_spec 48 (code_of c)); destruct (Z.leb_spec (code_of c) 57);
  destruct (Z.leb_spec 97 (code_of c)); destruct (Z.leb_spec (code_of c) 102);
  destruct (Z.leb_spec 65 (code_of c)); destruct (Z.leb_spec (code_of c) 70);
    cbn [andb] in H; try discriminate; injection H as <-; lia.
Qed.

Lemma unhexlify_pair a b r :
  unhexlify (String a (String b r))
  = match hex_val a, hex_val b, unhexlify r with
    | Some x, Some y, Ok bs => Ok (16 * x + y :: bs)
    | _, _, _ => Raise BinasciiError
    end.
Proof. reflexivity. Qed.

Lemma unhexlify_length s bs :
  unhexlify s = Ok bs →
  String.length s = (2 * length bs)%nat ∧ Forall (fun b => 0 <= b < 256) bs.
Proof.
  revert bs. induction s as [|a|a b r IH] using string_pair_ind; intros bs H.
  - injection H as <-. split; [reflexivity|constructor].
  - discriminate.
  - rewrite unhexlify_pair in H.
    destruct (hex_val a) as [x|] eqn:Ha; [|discriminate].
    destruct (hex_val b) as [y|] eqn:Hb; [|discriminate].
    destruct (unhexlify r) as [bs'|] eqn:Hr; [|discriminate].
    injection H as <-. destruct (IH bs' eq_refl) as [Hlen Hall].
    apply hex_val_range in Ha. apply hex_val_range in Hb.
    split; [cbn [String.length length]; lia|]. constructor; [lia|exact Hall].
Qed.

Lemma unhexlify_ok_iff s :
  is_ok (unhexlify s) = true ↔
  Nat.even (String.length s) = true
  ∧ forallb is_hex (list_ascii_of_string s) = true.
Proof.
  induction s as [|a|a b r IH] using string_pair_ind.
  - split; [split|]; reflexivity.
  - split; [discriminate|]. intros [H _]. discriminate.
  - rewrite unhexlify_pair. cbn [String.length Nat.even list_ascii_of_string forallb].
    unfold is_hex at 1 2.
    destruct (hex_val a); [|split; [discriminate|intros [_ H]; discriminate]].
    destruct (hex_val b); [|split; [discriminate|intros [_ H]; discriminate]].
    cbn [andb]. destruct (unhexlify r); exact IH.
Qed.

Lemma unhexlify_raise s e : unhexlify s = Raise e → e = BinasciiError.
Proof.
  induction s as [|a|a b r IH] using string_pair_ind; intros Hk.
  - discriminate.
  - injection Hk as <-. reflexivity.
  - rewrite unhexlify_pair in Hk.
    destruct (hex_val a); [|injection Hk as <-; reflexivity].
    destruct (hex_val b); [|injection Hk as <-; reflexivity].
    destruct (unhexlify r); [discriminate|injection Hk as <-; reflexivity].
Qed.

(** X1. [bin_key] decodes the stored key exactly when it has an even
    number of characters, all of them hexadecimal digits; the result then
    has half as many bytes, each in 0..255, and otherwise [binascii.Error]
    is raised. The device is left as it is. *)
Theorem bin_key_decodes st :
  (Nat.even (String.length (key (self st))) = true
   ∧ forallb is_hex (list_ascii_of_string (key (self st))) = true →
   ∃ kb, bin_key st = (Ok kb, st)
         ∧ String.length (key (self st)) = (2 * length kb)%nat
         ∧ Forall (fun b => 0 <= b < 256) kb)
  ∧ (¬ (Nat.even (String.length (key (self st))) = true
        ∧ forallb is_hex (list_ascii_of_string (key (self st))) = true) →
     bin_key st = (Raise BinasciiError, st)).
Proof.
  pose proof (unhexlify_ok_iff (key (self st))) as Hiff.
  unfold bin_key, bind, get_self, lift.
  destruct (unhexlify (key (self st))) as [kb|e] eqn:Hk; split.
  - intros _. exists kb. split; [reflexivity|].
    apply unhexlify_length. exact Hk.
  - intros Hn. exfalso. apply Hn. apply Hiff. reflexivity.
  - intros H. apply Hiff in H. discriminate.
  - intros _. rewrite (unhexlify_raise _ _ Hk). reflexivity.
Qed.

Lemma bin_key_decodes_witness :
  ∃ kb, bin_key (fresh alice) = (Ok kb, fresh alice)
        ∧ String.length (key alice) = (2 * length kb)%nat
        ∧ Forall (fun b => 0 <= b < 256) kb.
Proof.
  destruct (bin_key_decodes (fresh alice)) as [H _].
  apply H. split; vm_compute; reflexivity.
Defined.

Lemma hex_val_digit d : 0 <= d < 16 → hex_val (hex_digit d) = Some d.
Proof.
  intros H.
  assert (Hd : d = 0 ∨ d = 1 ∨ d = 2 ∨ d = 3 ∨ d = 4 ∨ d = 5 ∨ d = 6 ∨ d = 7
               ∨ d = 8 ∨ d = 9 ∨ d = 10 ∨ d = 11 ∨ d = 12 ∨ d = 13
               ∨ d = 14 ∨ d = 15) by lia.
  repeat (destruct Hd as [->|Hd]; [reflexivity|]). subst. reflexivity.
Qed.

Lemma hexlify_length bs : String.length (hexlify bs) = (2 * length bs)%nat.
Proof.
  induction bs as [|b r IH]; [reflexivity|].
  cbn [hexlify String.length length]. rewrite IH. lia.
Qed.

Lemma unhexlify_hexlify bs :
  Forall (fun b => 0 <= b < 256) bs → unhexlify (hexlify bs) = Ok bs.
Proof.
  induction 1 as [|b r Hb _ IH]; [reflexivity|].
  cbn [hexlify]. rewrite unhexlify_pair.
  rewrite !hex_val_digit, IH.
  - f_equal. f_equal. pose proof (Z.div_mod b 16 ltac:(lia)). lia.
  - apply Z.mod_pos_bound. lia.
  - split; [apply Z.div_pos; lia|apply Z.div_lt_upper_bound; lia].
Qed.

(** X2. A key made by [default_key] from twenty random bytes passes
    [key_validator], and [bin_key] gives back exactly those bytes. *)
Theorem default_key_round_trip (urandom : nat → list Z) st :
  length (urandom 20%nat) = 20%nat →
  Forall (fun b => 0 <= b < 256) (urandom 20%nat) →
  key (self st) = default_key urandom →
  key_validator (default_key urandom) = Valid
  ∧ bin_key st = (Ok (urandom 20%nat), st).
Proof.
  intros Hlen Hall Hkey. unfold default_key, random_hex in *. split.
  - unfold key_validator, hex_validator.
    rewrite (unhexlify_hexlify _ Hall), hexlify_length, Hlen. reflexivity.
  - unfold bin_key, bind, get_self, lift.
    rewrite Hkey, (unhexlify_hexlify _ Hall). reflexivity.
Qed.

Lemma default_key_round_trip_witness :
  let urandom := fun n => map Z.of_nat (seq 100 n) in
  key_validator (default_key urandom) = Valid.
Proof.
  intros urandom.
  destruct (default_key_round_trip urandom
              (fresh (mkDevice 3 3 "" true "test" (default_key urandom) (-1))))
    as [H _]; [reflexivity| |reflexivity|exact H].
  apply List.Forall_forall. intros b Hb. apply in_map_iff in Hb.
  destruct Hb as (i & <- & Hi). apply in_seq in Hi. lia.
Defined.

(** X3. [key_validator] passes exactly the keys of forty hexadecimal
    digits, and a key that passes decodes to twenty bytes. *)
Theorem key_validator_valid value :
  (key_validator value = Valid ↔
   String.length value = 40%nat
   ∧ forallb is_hex (list_ascii_of_string value) = true)
  ∧ (key_validator value = Valid →
     ∃ kb, unhexlify value = Ok kb ∧ length kb = 20%nat).
Proof.
  pose proof (unhexlify_ok_iff value) as Hiff.
  unfold key_validator, hex_validator.
  destruct (unhexlify value) as [kb|e] eqn:Hk.
  - destruct Hiff as [Hfwd _]. destruct (Hfwd eq_refl) as [_ Hhex].
    apply unhexlify_length in Hk as Hlen. destruct Hlen as [Hlen _].
    cbn [Nat.ltb Nat.leb andb].
    destruct (Nat.eqb_spec (String.length value) (20 * 2)) as [H40|H40];
      cbn [negb]; split.
    + split; [intros _; split; [exact H40|exact Hhex]|reflexivity].
    + intros _. exists kb. split; [reflexivity|lia].
    + split; [discriminate|]. intros [H _]. exfalso. apply H40. exact H.
    + discriminate.
  - split; [split; [discriminate|]|discriminate].
    intros [Hlen Hhex]. destruct Hiff as [_ Hbwd].
    assert (Hok : is_ok (@Raise (list Z) e) = true).
    { apply Hbwd. split; [rewrite Hlen; reflexivity|exact Hhex]. }
    discriminate.
Qed.

(** ** More on [verify_token] *)

Lemma verify_token_accept_inv env token st st' :
  verify_token env token st = (Ok true, st') →
  ∃ n kb tv lo t,
    py_int token = Ok n ∧ unhexlify (key (self st)) = Ok kb
    ∧ Settings.__getattr__ (django env) "OTP_TEXTLOCAL_TOKEN_VALIDITY" = Ok tv
    ∧ py_neg tv = Ok lo
    ∧ now env + lo <= t <= now env ∧ last_t (self st) < t
    ∧ hotp kb t 6 = Ok n ∧ st' = accepted_at st t.
Proof.
  unfold verify_token. intros Hrun.
  destruct (py_int token) as [n|e] eqn:Hn; [|discriminate].
  unfold bind at 1 in Hrun.
  destruct (unhexlify (key (self st))) as [kb|e] eqn:Hk.
  2:{ rewrite (totp_obj_raise env st e Hk) in Hrun. discriminate. }
  rewrite (totp_obj_eq env st kb Hk) in Hrun.
  unfold bind at 1, setting at 1, lift at 1 in Hrun.
  destruct (Settings.__getattr__ (django env) "OTP_TEXTLOCAL_TOKEN_VALIDITY")
    as [tv|e] eqn:Htv; [|discriminate].
  unfold bind at 1, lift at 1 in Hrun.
  destruct (py_neg tv) as [lo|e] eqn:Hlo; [|discriminate].
  apply verify_scan_outcome in Hrun.
  destruct Hrun as [(off & Hin & _ & Hlt & Hcode & _ & Hst)
                   |[(off & _ & Hr & _)|[H _]]];
    [|discriminate|congruence].
  apply py_range_In in Hin.
  exists n, kb, tv, lo, (now env + off). repeat split; try assumption; lia.
Qed.

(** X4. When [verify_token] returns true, the step it accepted lies in
    the window [now - tolerance, now], is above the previous watermark and
    has the candidate as its code; the watermark is that step and the
    stored row of the device equals the device object. *)
Theorem verify_token_accepted env token st st' tol :
  verify_token env token st = (Ok true, st') →
  Settings.__getattr__ (django env) "OTP_TEXTLOCAL_TOKEN_VALIDITY"
    = Ok (PyInt tol) →
  ∃ t, now env - tol <= t <= now env
       ∧ last_t (self st) < t
       ∧ (∃ n kb, py_int token = Ok n ∧ unhexlify (key (self st)) = Ok kb
                  ∧ hotp kb t 6 = Ok n)
       ∧ self st' = set_last_t (self st) t
       ∧ db st' !! pk (self st') = Some (self st').
Proof.
  intros Hrun Htol. apply verify_token_accept_inv in Hrun.
  destruct Hrun as (n & kb & tv & lo & t & Hn & Hk & Htv & Hlo & Ht & Hlt
                    & Hcode & ->).
  rewrite Htol in Htv. injection Htv as <-. injection Hlo as <-.
  exists t. repeat split; try lia.
  - exists n, kb. auto.
  - cbn. apply lookup_insert_eq.
Qed.

Lemma verify_token_accepted_witness :
  ∃ t, 1420125597 - 30 <= t <= 1420125597 ∧ -1 < t.
Proof.
  assert (Hrun : verify_token (mkEnv 1420125597 ∅ offline) (PyStr "430416")
                              (fresh alice)
                 = (Ok true, accepted_at (fresh alice) 1420125590))
    by (vm_compute; reflexivity).
  assert (Htol : Settings.__getattr__ ∅ "OTP_TEXTLOCAL_TOKEN_VALIDITY"
                 = Ok (PyInt 30)) by (vm_compute; reflexivity).
  destruct (verify_token_accepted _ _ _ _ 30 Hrun Htol)
    as (t & Hwin & Habove & _).
  exists t. split; [exact Hwin|exact Habove].
Defined.

(** X5. Whatever its outcome, [verify_token] writes nothing to the log,
    posts nothing, changes no field of the device other than [last_t] and
    no stored row other than the device's own. *)
Theorem verify_token_frame env token st :
  let st' := snd (verify_token env token st) in
  log st' = log st ∧ outbox st' = outbox st
  ∧ pk (self st') = pk (self st) ∧ user (self st') = user (self st)
  ∧ name (self st') = name (self st)
  ∧ confirmed (self st') = confirmed (self st)
  ∧ number (self st') = number (self st) ∧ key (self st') = key (self st)
  ∧ ∀ i, i ≠ pk (self st) → db st' !! i = db st !! i.
Proof.
  intros st'. subst st'.
  destruct (verify_token env token st) as [r st'] eqn:Hrun.
  apply verify_token_outcome in Hrun.
  destruct Hrun as [(n & kb & t & _ & _ & _ & _ & _ & _ & _ & ->)
                   |[(n & kb & t & _ & _ & _ & _ & _ & _ & _ & ->)|[_ ->]]];
    cbn [snd]; repeat split; try reflexivity.
  intros i Hi. cbn. apply lookup_insert_ne. intros Heq. apply Hi. symmetry.
  exact Heq.
Qed.

(** X6. A candidate whose integer value is outside 0..999999 is never
    accepted: the call does not return true and leaves the state as it
    was. *)
Theorem verify_token_out_of_range env token st n :
  py_int token = Ok n → ¬ (0 <= n < 1000000) →
  fst (verify_token env token st) ≠ Ok true
  ∧ snd (verify_token env token st) = st.
Proof.
  intros Hn Hout.
  destruct (verify_token env token st) as [r st'] eqn:Hrun.
  apply verify_token_outcome in Hrun.
  destruct Hrun as [(n' & kb & t & Hn' & _ & _ & _ & _ & Hcode & _)
                   |[(n' & kb & t & Hn' & _ & _ & _ & _ & Hcode & _)|H]];
    [| |exact H];
    exfalso; apply Hout; apply hotp_inv in Hcode; destruct Hcode as [_ Hc];
    assert (n' = n) by congruence; subst n'; exact Hc.
Qed.

Lemma verify_token_out_of_range_witness :
  snd (verify_token (mkEnv 1420099200 ∅ offline) (PyStr "-924502")
                    (fresh alice)) = fresh alice.
Proof.
  apply (verify_token_out_of_range (mkEnv 1420099200 ∅ offline)
           (PyStr "-924502") (fresh alice) (-924502)).
  - vm_compute. reflexivity.
  - lia.
Defined.

(** X7. While the clock is not past the watermark nothing is accepted:
    for every candidate that parses, on a device whose key decodes,
    [verify_token] returns false and changes nothing, without calling the
    engine (so also at times the engine cannot handle). *)
Theorem verify_token_clock_not_past_watermark env token st n kb tol :
  py_int token = Ok n →
  unhexlify (key (self st)) = Ok kb →
  Settings.__getattr__ (django env) "OTP_TEXTLOCAL_TOKEN_VALIDITY"
    = Ok (PyInt tol) →
  now env <= last_t (self st) →
  verify_token env token st = (Ok false, st).
Proof.
  intros Hn Hk Htol Hclock.
  rewrite (verify_token_find env st token n kb tol Hn Hk Htol).
  - replace (find _ _) with (@None Z); [reflexivity|].
    symmetry. apply find_py_range_none. intros off Hoff.
    unfold accepts. destruct (Z.gtb_spec (now env + off) (last_t (self st)));
      [lia|reflexivity].
  - intros off Hin Habove. apply py_range_In in Hin. lia.
Qed.

Lemma verify_token_clock_not_past_watermark_witness :
  let st := fresh (set_last_t alice (2 ^ 70)) in
  verify_token (mkEnv (2 ^ 70) ∅ offline) (PyInt 5) st = (Ok false, st).
Proof.
  apply (verify_token_clock_not_past_watermark
           (mkEnv (2 ^ 70) ∅ offline) (PyInt 5)
           (fresh (set_last_t alice (2 ^ 70))) 5 alice_key 30);
    try (vm_compute; reflexivity).
  simpl. lia.
Defined.

Lemma verify_scan_stops kb time drift token offsets st :
  verify_scan (totp_at kb time drift) token offsets st
  = match find (stops kb (last_t (self st)) time token) offsets with
    | Some off =>
        match hotp kb (time + off) 6 with
        | Ok _ =>
            if bigint_range (time + off)
            then (Ok true, accepted_at st (time + off))
            else (Raise DatabaseRangeError, assigned_at st (time + off))
        | Raise e => (Raise e, st)
        end
    | None => (Ok false, st)
    end.
Proof.
  revert drift. induction offsets as [|off rest IH]; intros drift.
  - reflexivity.
  - cbn [verify_scan find]. unfold stops at 1.
    change (set_drift (totp_at kb time drift) off) with (totp_at kb time off).
    unfold bind at 1. unfold get_self at 1. rewrite totp_at_t.
    destruct (time + off >? last_t (self st)) eqn:Hgt; cbn [andb];
      [|apply IH].
    unfold bind at 1, lift at 1. rewrite totp_at_token.
    destruct (hotp kb (time + off) 6) as [v|e] eqn:Hv;
      [|cbn [find]; rewrite Hv; reflexivity].
    destruct (v =? token); [|apply IH].
    cbn [find]. rewrite Hv. unfold bind, assign_last_t, save, ret.
    cbn [self last_t set_last_t].
    destruct (bigint_range (time + off)); reflexivity.
Qed.

(** X8. The whole behaviour of [verify_token] on a candidate that parses
    and a key that decodes: the scan of -tolerance .. 0 ends at the first
    offset whose step is above the watermark and whose code is the
    candidate or cannot be computed. When the code is the candidate the
    step is assigned to the watermark and, if it fits the 64-bit column,
    stored and accepted; if it does not fit, saving raises and the object
    keeps the assigned step while the row is unchanged. When the code
    cannot be computed the engine's exception leaves [verify_token] with
    the state unchanged, and when no offset ends the scan the result is
    false. *)
Theorem verify_token_scan env st token n kb tol :
  py_int token = Ok n →
  unhexlify (key (self st)) = Ok kb →
  Settings.__getattr__ (django env) "OTP_TEXTLOCAL_TOKEN_VALIDITY"
    = Ok (PyInt tol) →
  verify_token env token st
  = match find (stops kb (last_t (self st)) (now env) n)
               (py_range (- tol) 1) with
    | Some off =>
        match hotp kb (now env + off) 6 with
        | Ok _ =>
            if bigint_range (now env + off)
            then (Ok true, accepted_at st (now env + off))
            else (Raise DatabaseRangeError,
                  assigned_at st (now env + off))
        | Raise e => (Raise e, st)
        end
    | None => (Ok false, st)
    end.
Proof.
  intros Hn Hk Htol. unfold verify_token. rewrite Hn.
  unfold bind at 1. rewrite (totp_obj_eq env st kb Hk).
  unfold bind at 1. rewrite (setting_eq _ _ _ _ Htol).
  unfold bind at 1, lift at 1. cbn [py_neg].
  apply verify_scan_stops.
Qed.

(** A watermark below -1 at a time before the epoch plus tolerance: the
    step -4 is probed and the engine cannot pack it. And at time 2^63 the
    code 108259 of that step is assigned to the watermark but cannot be
    stored: the object holds 2^63 and the row still holds -1. *)
Lemma verify_token_scan_witness :
  let st := fresh (set_last_t alice (-5)) in
  verify_token (mkEnv 2 ∅ offline) (PyInt 5) st = (Raise StructError, st)
  ∧ verify_token (mkEnv (2 ^ 63) ∅ offline) (PyInt 108259) (fresh alice)
    = (Raise DatabaseRangeError, assigned_at (fresh alice) (2 ^ 63)).
Proof.
  intros st. split.
  - rewrite (verify_token_scan (mkEnv 2 ∅ offline) st (PyInt 5) 5 alice_key 30
               ltac:(vm_compute; reflexivity) ltac:(vm_compute; reflexivity)
               ltac:(vm_compute; reflexivity)).
    vm_compute. reflexivity.
  - rewrite (verify_token_scan (mkEnv (2 ^ 63) ∅ offline) (fresh alice)
               (PyInt 108259) 108259 alice_key 30
               ltac:(vm_compute; reflexivity) ltac:(vm_compute; reflexivity)
               ltac:(vm_compute; reflexivity)).
    vm_compute. reflexivity.
Defined.

(** X9. With a negative tolerance the window is empty: every candidate
    that parses is refused and nothing changes. *)
Theorem verify_token_negative_tolerance env st token n kb tol :
  py_int token = Ok n →
  unhexlify (key (self st)) = Ok kb →
  Settings.__getattr__ (django env) "OTP_TEXTLOCAL_TOKEN_VALIDITY"
    = Ok (PyInt tol) →
  tol < 0 →
  verify_token env token st = (Ok false, st).
Proof.
  intros Hn Hk Htol Hneg. unfold verify_token. rewrite Hn.
  unfold bind at 1. rewrite (totp_obj_eq env st kb Hk).
  unfold bind at 1. rewrite (setting_eq _ _ _ _ Htol).
  unfold bind at 1, lift at 1. cbn [py_neg].
  rewrite py_range_nil by lia. reflexivity.
Qed.

Lemma verify_token_negative_tolerance_witness :
  let dj : gmap string pyval :=
    {[ "OTP_TEXTLOCAL_TOKEN_VALIDITY" := PyInt (-1) ]} in
  verify_token (mkEnv 1420099200 dj offline) (PyStr "924502") (fresh alice)
  = (Ok false, fresh alice).
Proof.
  intros dj.
  apply (verify_token_negative_tolerance (mkEnv 1420099200 dj offline)
           (fresh alice) (PyStr "924502") 924502 alice_key (-1));
    vm_compute; reflexivity.
Defined.

(** X10. A wider tolerance never refuses what a narrower one accepts: at
    the same time and on the same device, a candidate accepted under
    [tol1] is accepted under any [tol2 >= tol1]. *)
Theorem verify_token_tolerance_monotone env1 env2 st token n kb tol1 tol2 :
  py_int token = Ok n →
  unhexlify (key (self st)) = Ok kb →
  Settings.__getattr__ (django env1) "OTP_TEXTLOCAL_TOKEN_VALIDITY"
    = Ok (PyInt tol1) →
  Settings.__getattr__ (django env2) "OTP_TEXTLOCAL_TOKEN_VALIDITY"
    = Ok (PyInt tol2) →
  now env2 = now env1 → tol1 <= tol2 →
  -1 <= last_t (self st) → now env1 < 2 ^ 64 →
  fst (verify_token env1 token st) = Ok true →
  fst (verify_token env2 token st) = Ok true.
Proof.
  intros Hn Hk Ht1 Ht2 Hnow Hle Hlast Hrange.
  rewrite (verify_token_find env1 st token n kb tol1 Hn Hk Ht1
             (window_probes _ _ _ Hlast Hrange)).
  assert (Hrange2 : now env2 < 2 ^ 64) by lia.
  rewrite (verify_token_find env2 st token n kb tol2 Hn Hk Ht2
             (window_probes _ _ _ Hlast Hrange2)).
  rewrite Hnow.
  destruct (find _ (py_range (- tol1) 1)) as [off|] eqn:Hf1; [|discriminate].
  destruct (bigint_range (now env1 + off)) eqn:Hfit1; [|discriminate].
  intros _. apply find_py_range_first in Hf1. destruct Hf1 as (Hoff & Hok & _).
  apply bigint_range_spec in Hfit1.
  destruct (find _ (py_range (- tol2) 1)) as [off2|] eqn:Hf2.
  - apply find_py_range_first in Hf2. destruct Hf2 as (Hoff2 & Hok2 & Hb2).
    assert (Hearlier : off2 <= off).
    { destruct (Z.le_gt_cases off2 off) as [H|H]; [exact H|].
      rewrite Hb2 in Hok by lia. discriminate. }
    apply accepts_inv in Hok2 as [_ Hc2]. apply hotp_inv in Hc2 as [Hc2 _].
    assert (Hfit2 : bigint_range (now env1 + off2) = true)
      by (apply bigint_range_spec; lia).
    rewrite Hfit2. reflexivity.
  - rewrite find_py_range_none in Hf2. rewrite Hf2 in Hok by lia. discriminate.
Qed.

Lemma verify_token_tolerance_monotone_witness :
  let dj : gmap string pyval :=
    {[ "OTP_TEXTLOCAL_TOKEN_VALIDITY" := PyInt 60 ]} in
  fst (verify_token (mkEnv 1420099230 dj offline) (PyStr "924502")
                    (fresh alice)) = Ok true.
Proof.
  intros dj.
  apply (verify_token_tolerance_monotone
           (mkEnv 1420099230 ∅ offline) (mkEnv 1420099230 dj offline)
           (fresh alice) (PyStr "924502") 924502 alice_key 30 60);
    try (vm_compute; reflexivity); simpl; lia.
Defined.

(** X11. Over any run of calls the watermark never runs ahead of the
    clock: if it starts at or below [T] and every call is made at a time
    at or below [T], it ends at or below [T]. *)
Theorem verify_calls_clock_bound calls st T :
  (∀ c, In c calls → now (fst c) <= T) →
  last_t (self st) <= T →
  last_t (self (verify_calls calls st)) <= T.
Proof.
  revert st. induction calls as [|[env token] calls IH]; intros st Hnow Hlast.
  - exact Hlast.
  - cbn [verify_calls fold_left fst snd]. apply IH.
    + intros c Hc. apply Hnow. right. exact Hc.
    + specialize (Hnow (env, token) ltac:(left; reflexivity)).
      cbn [fst] in Hnow.
      destruct (verify_token env token st) as [r st'] eqn:Hrun.
      apply verify_token_outcome in Hrun.
      destruct Hrun as [(n & kb & t & _ & _ & _ & _ & Ht & _ & _ & ->)
                       |[(n & kb & t & _ & _ & _ & _ & Ht & _ & _ & ->)
                        |[_ ->]]]; cbn; lia.
Qed.

Lemma verify_calls_clock_bound_witness :
  last_t (self (verify_calls
                  [(mkEnv 1420099200 ∅ offline, PyStr "924502");
                   (mkEnv 1420099100 ∅ offline, PyStr "000000")]
                  (fresh alice))) <= 1420099200.
Proof.
  apply verify_calls_clock_bound.
  - intros c [<-|[<-|[]]]; simpl; lia.
  - simpl. lia.
Defined.

(** X12. The stored row stays in step with the device object: if the row
    of the device equals the object before a run of calls, all made at
    times below 2^63 (so that every accepted step can be stored), it does
    so after it. *)
Theorem verify_calls_row_in_step calls st :
  (∀ c, In c calls → now (fst c) < 2 ^ 63) →
  db st !! pk (self st) = Some (self st) →
  db (verify_calls calls st) !! pk (self (verify_calls calls st))
  = Some (self (verify_calls calls st)).
Proof.
  revert st. induction calls as [|[env token] calls IH]; intros st Hnow Hrow.
  - exact Hrow.
  - cbn [verify_calls fold_left fst snd]. apply IH.
    { intros c Hc. apply Hnow. right. exact Hc. }
    specialize (Hnow (env, token) ltac:(left; reflexivity)).
    cbn [fst] in Hnow.
    destruct (verify_token env token st) as [r st'] eqn:Hrun.
    apply verify_token_outcome in Hrun.
    destruct Hrun as [(n & kb & t & _ & _ & _ & _ & _ & _ & _ & ->)
                     |[(n & kb & t & _ & _ & _ & _ & Ht & Hcode & Hfit & _)
                      |[_ ->]]].
    + cbn. apply lookup_insert_eq.
    + exfalso. apply hotp_inv in Hcode as [Hc _].
      assert (Hin : bigint_range t = true) by (apply bigint_range_spec; lia).
      congruence.
    + exact Hrow.
Qed.

Lemma verify_calls_row_in_step_witness :
  let st := verify_calls [(mkEnv 1420099200 ∅ offline, PyStr "924502")]
                         (fresh alice) in
  db st !! pk (self st) = Some (self st).
Proof.
  apply (verify_calls_row_in_step
           [(mkEnv 1420099200 ∅ offline, PyStr "924502")] (fresh alice)).
  - intros c [<-|[]]. simpl. lia.
  - vm_compute. reflexivity.
Defined.

(** X13. What [verify_token] raises for a candidate that parses: a key
    that does not decode gives [binascii.Error], and with a key that
    decodes a validity setting that is [None] or text gives [TypeError];
    in both cases the state is unchanged. *)
Theorem verify_token_raises env token st n :
  py_int token = Ok n →
  (∀ e, unhexlify (key (self st)) = Raise e →
        verify_token env token st = (Raise BinasciiError, st))
  ∧ (∀ kb tv, unhexlify (key (self st)) = Ok kb →
        Settings.__getattr__ (django env) "OTP_TEXTLOCAL_TOKEN_VALIDITY"
          = Ok tv →
        (tv = PyNone ∨ ∃ s, tv = PyStr s) →
        verify_token env token st = (Raise TypeError, st)).
Proof.
  intros Hn. split.
  - intros e Hk. unfold verify_token. rewrite Hn.
    rewrite (bind_raise _ _ _ _ _ (totp_obj_raise env st e Hk)).
    rewrite (unhexlify_raise _ _ Hk). reflexivity.
  - intros kb tv Hk Htv Hbad. unfold verify_token. rewrite Hn.
    rewrite (bind_ok _ _ _ _ _ (totp_obj_eq env st kb Hk)).
    rewrite (bind_ok _ _ _ _ _ (setting_eq _ _ _ _ Htv)).
    destruct Hbad as [->|[s ->]]; reflexivity.
Qed.

Lemma verify_token_raises_witness :
  let st := fresh (mkDevice 2 2 "" true "test" "0g" (-1)) in
  verify_token (mkEnv 1420099200 ∅ offline) (PyStr "924502") st
  = (Raise BinasciiError, st).
Proof.
  intros st.
  destruct (verify_token_raises (mkEnv 1420099200 ∅ offline)
              (PyStr "924502") st 924502 ltac:(vm_compute; reflexivity))
    as [Hkey _].
  apply (Hkey BinasciiError). vm_compute. reflexivity.
Defined.

(** ** More on [generate_challenge] *)

Lemma keeps_generate_challenge env : keeps_device (generate_challenge env).
Proof.
  unfold generate_challenge, totp_obj, bin_key.
  repeat (first [apply keeps_deliver_token | keeps_step]).
Qed.

Lemma generate_challenge_ok_token env st ack st1 :
  generate_challenge env st = (Ok ack, st1) →
  ∃ tok, current_token env st = (Ok tok, st).
Proof.
  rewrite generate_challenge_split. intros H.
  apply bind_inv_ok in H as (tok & s1 & Htok & _).
  apply current_token_inv in Htok as Hinv. destruct Hinv as [-> _].
  exists tok. exact Htok.
Qed.

Lemma str_format_token tok : str_format (PyStr "{token}") tok = Ok tok.
Proof.
  unfold str_format.
  change (format_go (list_ascii_of_string tok) None
            (list_ascii_of_string "{token}"))
    with (Ok (list_ascii_of_string tok ++ [])%list).
  rewrite app_nil_r, string_of_list_ascii_of_string. reflexivity.
Qed.

(** X14. A challenge can be redeemed: when [generate_challenge] returns
    under the challenge template [{token}] on a device whose watermark is
    below the current step, [verify_token] accepts the returned text at
    any time from then until [tolerance] seconds later, as long as that
    time is below 2^63 so that the accepted step can be stored. *)
Theorem challenge_verifies gen ver st ack st1 tol :
  generate_challenge gen st = (Ok ack, st1) →
  Settings.__getattr__ (django gen) "OTP_TEXTLOCAL_CHALLENGE_MESSAGE"
    = Ok (PyStr "{token}") →
  Settings.__getattr__ (django ver) "OTP_TEXTLOCAL_TOKEN_VALIDITY"
    = Ok (PyInt tol) →
  -1 <= last_t (self st) < now gen →
  now gen <= now ver <= now gen + tol →
  now ver < 2 ^ 63 →
  fst (verify_token ver (PyStr ack) st1) = Ok true.
Proof.
  intros Hrun Hct Htol Hlast Hwin Hrange.
  destruct (generate_challenge_ok_token gen st ack st1 Hrun) as [tok Htok].
  destruct (generate_challenge_return gen st tok ack st1 Htok Hrun)
    as (ct & Hct' & Hack).
  rewrite Hct in Hct'. injection Hct' as <-.
  rewrite str_format_token in Hack. injection Hack as <-.
  apply current_token_inv in Htok as (_ & kb & c & Hk & Hc & ->).
  destruct (keeps_generate_challenge gen st) as [Hself _].
  rewrite Hrun in Hself. cbn [snd] in Hself.
  apply hotp_inv in Hc as Hcr. destruct Hcr as [_ Hcr].
  assert (Hparse : py_int (PyStr (format_06d c)) = Ok c)
    by (apply py_int_format_06d; lia).
  assert (Hk1 : unhexlify (key (self st1)) = Ok kb) by (rewrite Hself; exact Hk).
  rewrite (verify_token_find ver st1 _ c kb tol Hparse Hk1 Htol).
  - destruct (find _ _) as [off|] eqn:Hfind.
    { apply find_py_range_first in Hfind. destruct Hfind as (Hoff & Hok & _).
      rewrite (accepts_bigint _ _ _ _ _ Hok) by lia. reflexivity. }
    rewrite find_py_range_none in Hfind.
    specialize (Hfind (now gen - now ver) ltac:(lia)).
    rewrite accepts_true in Hfind; [discriminate| |].
    + rewrite Hself. lia.
    + replace (now ver + (now gen - now ver)) with (now gen) by lia.
      exact Hc.
  - apply window_probes; [rewrite Hself; lia|lia].
Qed.

Lemma challenge_verifies_witness :
  fst (verify_token (mkEnv 1420099215 test_settings offline)
                    (PyStr "924502") (logged (fresh alice) "924502"))
  = Ok true.
Proof.
  assert (Hrun : generate_challenge (mkEnv 1420099200 test_settings offline)
                                    (fresh alice)
                 = (Ok "924502", logged (fresh alice) "924502"))
    by (vm_compute; reflexivity).
  apply (challenge_verifies (mkEnv 1420099200 test_settings offline)
           (mkEnv 1420099215 test_settings offline) _ _ _ 30 Hrun);
    try (vm_compute; reflexivity); simpl; lia.
Defined.

Lemma validate_config_state env st : snd (_validate_config env st) = st.
Proof.
  unfold _validate_config, bind, setting, lift, raise, ret.
  destruct (Settings.__getattr__ (django env) "OTP_TEXTLOCAL_API_KEY")
    as [k|]; [|reflexivity].
  destruct (is_none k); [reflexivity|].
  destruct (Settings.__getattr__ (django env) "OTP_TEXTLOCAL_URL")
    as [u|]; [|reflexivity].
  destruct (is_none u); [reflexivity|].
  destruct (Settings.__getattr__ (django env) "OTP_TEXTLOCAL_SENDER")
    as [s|]; [|reflexivity].
  destruct (is_none s); reflexivity.
Qed.

Lemma current_token_state env st : snd (current_token env st) = st.
Proof.
  unfold current_token, totp_obj, bin_key, bind, get_self, lift, ret.
  destruct (unhexlify (key (self st))) as [kb|e]; cbv beta iota;
    [|reflexivity].
  destruct (TOTP_token _); reflexivity.
Qed.

Lemma deliver_token_posts env msg st :
  let st' := snd (_deliver_token env msg st) in
  self st' = self st
  ∧ (outbox st' = outbox st
     ∨ ∃ req, outbox st' = (outbox st ++ [req])%list
              ∧ req_numbers req = number (self st)
              ∧ req_message req = msg).
Proof.
  intros st'. subst st'. split; [apply keeps_deliver_token|].
  destruct (is_ok (fst (_validate_config env st))) eqn:Hv.
  - apply validate_config_ok in Hv. destruct Hv as (k & u & s & Hc).
    right. eexists. split; [apply (deliver_token_outbox _ _ _ _ _ _ Hc)|].
    split; reflexivity.
  - left. unfold _deliver_token, bind.
    pose proof (validate_config_state env st) as Hst.
    destruct (_validate_config env st) as [[[]|e] s1]; [discriminate|].
    cbn [snd] in *. subst s1. reflexivity.
Qed.

(** X15. [generate_challenge] posts at most one request, whatever
    happens: afterwards the outbox is as before, or has one more request,
    addressed to the number of the device. *)
Theorem generate_challenge_posts_at_most_once env st :
  let st' := snd (generate_challenge env st) in
  outbox st' = outbox st
  ∨ ∃ req, outbox st' = (outbox st ++ [req])%list
           ∧ req_numbers req = number (self st).
Proof.
  intros st'. subst st'.
  destruct (generate_challenge env st) as [r st'] eqn:Hrun. cbn [snd].
  rewrite generate_challenge_split in Hrun. unfold bind at 1 in Hrun.
  pose proof (current_token_state env st) as Hst.
  destruct (current_token env st) as [[tok|e] s0]; cbn [snd] in Hst; subst s0;
    [|injection Hrun as _ <-; left; reflexivity].
  unfold challenge_with in Hrun.
  unfold bind at 1, setting at 1, lift at 1 in Hrun.
  destruct (Settings.__getattr__ (django env) "OTP_TEXTLOCAL_TOKEN_TEMPLATE")
    as [template|]; [|injection Hrun as _ <-; left; reflexivity].
  unfold bind at 1, lift at 1 in Hrun.
  destruct (str_format template tok) as [message|];
    [|injection Hrun as _ <-; left; reflexivity].
  unfold bind at 1, setting at 1, lift at 1 in Hrun.
  destruct (Settings.__getattr__ (django env) "OTP_TEXTLOCAL_NO_DELIVERY")
    as [nd|]; [|injection Hrun as _ <-; left; reflexivity].
  assert (Htail : ∀ s1,
            outbox (snd ((let! challenge_template :=
                            setting env "OTP_TEXTLOCAL_CHALLENGE_MESSAGE" in
                          let! challenge :=
                            lift (str_format challenge_template tok) in
                          ret challenge) s1)) = outbox s1).
  { intros s. unfold bind at 1, setting at 1, lift at 1.
    destruct (Settings.__getattr__ (django env)
                "OTP_TEXTLOCAL_CHALLENGE_MESSAGE") as [ct|]; [|reflexivity].
    unfold bind, lift, ret. destruct (str_format ct tok); reflexivity. }
  unfold bind at 1 in Hrun.
  destruct (py_bool nd).
  - left. unfold logger at 1 in Hrun.
    apply (f_equal (fun p => outbox (snd p))) in Hrun.
    rewrite Htail in Hrun. symmetry. exact Hrun.
  - destruct (deliver_token_posts env message st) as [_ Hpost].
    destruct (_deliver_token env message st) as [[[]|e] s1]; cbn [snd] in *.
    + apply (f_equal (fun p => outbox (snd p))) in Hrun.
      rewrite Htail in Hrun. cbn [snd] in Hrun. rewrite <- Hrun.
      destruct Hpost as [Hsame|(req & Hone & Hnum & _)]; [left; exact Hsame|].
      right. exists req. split; assumption.
    + injection Hrun as _ <-.
      destruct Hpost as [Hsame|(req & Hone & Hnum & _)]; [left; exact Hsame|].
      right. exists req. split; assumption.
Qed.

(** ** Failures of delivery and of configuration *)

Lemma delivery_rejected_object f :
  f !! "status" ≠ Some (JStr "success") →
  delivery_rejected (JObj f) = Ok true.
Proof.
  intros Hne. unfold delivery_rejected, json_contains_status,
    json_getitem_status.
  destruct (f !! "status") as [v|] eqn:Hv.
  - rewrite bool_decide_eq_true_2 by (eexists; reflexivity).
    destruct v as [| | |s| |]; try reflexivity.
    cbn [is_success]. destruct (String.eqb_spec s "success") as [->|_];
      [congruence|reflexivity].
  - rewrite bool_decide_eq_false_2; [reflexivity|]. intros [? ?]. discriminate.
Qed.

(** X16. How a delivery fails once the settings are in place. Exactly one
    request has been posted in each case. A transport failure raises
    without logging; a status from 400 to 599 raises [HTTPError] and is
    logged once; a body that is not JSON raises [ValueError] unlogged; a
    JSON object without the field [status], or with another value than
    [success], raises an exception carrying the body and is logged
    once. *)
Theorem deliver_token_failures env msg st api_key url sender :
  delivery_configured env api_key url sender →
  let req := mkRequest url sender msg (number (self st)) api_key in
  let sent entries :=
    mkState (self st) (db st) (log st ++ entries) (outbox st ++ [req]) in
  (network env req = TransportFailure →
   _deliver_token env msg st = (Raise ConnectionError, sent []))
  ∧ (∀ r, network env req = Responded r →
       400 <= status_code r < 600 →
       _deliver_token env msg st
       = (Raise (HTTPError (status_code r)),
          sent [LogException (HTTPError (status_code r))]))
  ∧ (∀ r, network env req = Responded r →
       ¬ (400 <= status_code r < 600) → body r = None →
       _deliver_token env msg st = (Raise ValueError, sent []))
  ∧ (∀ r f, network env req = Responded r →
       ¬ (400 <= status_code r < 600) → body r = Some (JObj f) →
       f !! "status" ≠ Some (JStr "success") →
       _deliver_token env msg st
       = (Raise (DeliveryException (JObj f)), sent [LogError (JObj f)])).
Proof.
  intros Hc req sent.
  pose proof (deliver_token_configured env msg st _ _ _ Hc) as Heq.
  cbv zeta in Heq. fold req in Heq.
  assert (Hnil : sent [] = mkState (self st) (db st) (log st)
                                   (outbox st ++ [req])).
  { unfold sent. rewrite app_nil_r. reflexivity. }
  split; [|split; [|split]].
  - intros Hnet. rewrite Heq, Hnet, Hnil. reflexivity.
  - intros r Hnet Hst. rewrite Heq, Hnet. unfold raise_for_status.
    destruct (Z.leb_spec 400 (status_code r)); [|lia].
    destruct (Z.ltb_spec (status_code r) 600); [|lia]. reflexivity.
  - intros r Hnet Hst Hbody. rewrite Heq, Hnet.
    assert (Hok : raise_for_status r = Ok tt)
      by (apply raise_for_status_ok; lia).
    rewrite Hok. unfold response_json. rewrite Hbody, Hnil. reflexivity.
  - intros r f Hnet Hst Hbody Hf. rewrite Heq, Hnet.
    assert (Hok : raise_for_status r = Ok tt)
      by (apply raise_for_status_ok; lia).
    rewrite Hok. unfold response_json. rewrite Hbody.
    rewrite (delivery_rejected_object f Hf). reflexivity.
Qed.

Lemma deliver_token_failures_witness :
  _deliver_token
    (mkEnv 1420099200 textlocal_settings (answers 503 success_body))
    "924502" (fresh alice)
  = (Raise (HTTPError 503),
     mkState alice {[ 1 := alice ]} ([] ++ [LogException (HTTPError 503)])
       ([] ++ [mkRequest (PyStr "https://api.textlocal.in/send/")
                         (PyStr "TXTLCL") "924502" "test" (PyStr "k")])).
Proof.
  destruct (deliver_token_failures
              (mkEnv 1420099200 textlocal_settings (answers 503 success_body))
              "924502" (fresh alice) (PyStr "k")
              (PyStr "https://api.textlocal.in/send/") (PyStr "TXTLCL"))
    as (_ & Hhttp & _).
  - repeat split; vm_compute; reflexivity.
  - apply (Hhttp (mkResponse 503 (Some success_body))); [reflexivity|].
    simpl. lia.
Defined.


Lemma format_go_brace_free tok l :
  forallb (fun c => negb (Ascii.eqb c "{" || Ascii.eqb c "}")) l = true →
  format_go tok None l = Ok l.
Proof.
  induction l as [|c r IH]; intros H; [reflexivity|].
  cbn [forallb] in H. apply andb_true_iff in H as [Hc Hr].
  apply negb_true_iff, orb_false_iff in Hc as [Ho Hcl].
  cbn [format_go]. rewrite Ho, Hcl, (IH Hr). reflexivity.
Qed.

(** X20. A challenge template without braces never carries the code:
    when [generate_challenge] returns, it returns that template text as it
    is, whatever the code was. *)
Theorem challenge_literal env st ack st1 t :
  generate_challenge env st = (Ok ack, st1) →
  Settings.__getattr__ (django env) "OTP_TEXTLOCAL_CHALLENGE_MESSAGE"
    = Ok (PyStr t) →
  brace_free t = true →
  ack = t.
Proof.
  intros Hrun Hct Hfree.
  destruct (generate_challenge_ok_token env st ack st1 Hrun) as [tok Htok].
  destruct (generate_challenge_return env st tok ack st1 Htok Hrun)
    as (ct & Hct' & Hack).
  rewrite Hct in Hct'. injection Hct' as <-.
  unfold str_format in Hack. rewrite format_go_brace_free in Hack by exact Hfree.
  rewrite string_of_list_ascii_of_string in Hack. injection Hack as <-.
  reflexivity.
Qed.

Lemma challenge_literal_witness :
  fst (generate_challenge
         (mkEnv 1420099200 {[ "OTP_TEXTLOCAL_NO_DELIVERY" := PyBool true ]}
                offline)
         (fresh alice))
  = Ok "Sent by SMS".
Proof.
  destruct (generate_challenge
              (mkEnv 1420099200 {[ "OTP_TEXTLOCAL_NO_DELIVERY" := PyBool true ]}
                     offline)
              (fresh alice)) as [[ack|e] st1] eqn:Hrun.
  - cbn [fst]. f_equal.
    apply (challenge_literal _ _ _ _ "Sent by SMS" Hrun);
      vm_compute; reflexivity.
  - vm_compute in Hrun. discriminate.
Defined.


Lemma generate_challenge_setting_none_witness :
  let dj : gmap string pyval :=
    <[ "OTP_TEXTLOCAL_SENDER" := PyNone ]> textlocal_settings in
  ∃ msg, generate_challenge (mkEnv 1420099200 dj offline) (fresh alice)
         = (Raise (ImproperlyConfigured msg), fresh alice).
Proof.
  intros dj.
  apply (generate_challenge_setting_none (mkEnv 1420099200 dj offline)
           (fresh alice) "924502" (PyBool false) (PyStr "{token}") "924502"
           (PyStr "k") (PyStr "https://api.textlocal.in/send/") PyNone);
    vm_compute; reflexivity.
Defined.

(** X18. A delivery setting that is not defined at all does not reach the
    [None] test of [_validate_config]: reading it raises
    [AttributeError]. The settings are read in the order API key, URL,
    sender, and the first one that is undefined, with those before it
    defined and not [None], names the exception. *)
Theorem validate_config_undefined env st :
  (django env !! "OTP_TEXTLOCAL_API_KEY" = None →
   _validate_config env st
   = (Raise (AttributeError "OTP_TEXTLOCAL_API_KEY"), st))
  ∧ (∀ k, django env !! "OTP_TEXTLOCAL_API_KEY" = Some k →
       is_none k = false →
       django env !! "OTP_TEXTLOCAL_URL" = None →
       _validate_config env st
       = (Raise (AttributeError "OTP_TEXTLOCAL_URL"), st))
  ∧ (∀ k u, django env !! "OTP_TEXTLOCAL_API_KEY" = Some k →
       is_none k = false →
       django env !! "OTP_TEXTLOCAL_URL" = Some u →
       is_none u = false →
       django env !! "OTP_TEXTLOCAL_SENDER" = None →
       _validate_config env st
       = (Raise (AttributeError "OTP_TEXTLOCAL_SENDER"), st)).
Proof.
  unfold _validate_config, bind, setting, lift, raise, ret.
  split; [|split].
  - intros Hk. rewrite (getattr_absent _ _ Hk eq_refl). reflexivity.
  - intros k Hk Hkn Hu. unfold Settings.__getattr__ at 1. rewrite Hk, Hkn.
    rewrite (getattr_absent _ _ Hu eq_refl). reflexivity.
  - intros k u Hk Hkn Hu Hun Hs. unfold Settings.__getattr__ at 1.
    rewrite Hk, Hkn. unfold Settings.__getattr__ at 1. rewrite Hu, Hun.
    rewrite (getattr_absent _ _ Hs eq_refl). reflexivity.
Qed.

Lemma validate_config_undefined_witness :
  let dj : gmap string pyval := {[ "OTP_TEXTLOCAL_API_KEY" := PyStr "k" ]} in
  _validate_config (mkEnv 1420099200 dj offline) (fresh alice)
  = (Raise (AttributeError "OTP_TEXTLOCAL_URL"), fresh alice).
Proof.
  intros dj.
  destruct (validate_config_undefined (mkEnv 1420099200 dj offline)
              (fresh alice)) as (_ & Hurl & _).
  apply (Hurl (PyStr "k")); vm_compute; reflexivity.
Defined.

(** X22. Each acceptance moves the watermark up by at least one step and
    the watermark never passes the clock, so a run of calls made at times
    at or below [T] accepts at most [T - last_t] candidates, however many
    are tried. *)
Theorem accepted_count_bound calls st T :
  (∀ c, In c calls → now (fst c) <= T) →
  last_t (self st) <= T →
  Z.of_nat (accepted_count calls st) <= T - last_t (self st).
Proof.
  revert st. induction calls as [|[env token] calls IH]; intros st Hnow Hlast.
  - simpl. lia.
  - cbn [accepted_count].
    assert (Hrest : ∀ c, In c calls → now (fst c) <= T)
      by (intros c Hc; apply Hnow; right; exact Hc).
    specialize (Hnow (env, token) ltac:(left; reflexivity)).
    cbn [fst] in Hnow.
    destruct (verify_token env token st) as [r st'] eqn:Hrun.
    apply verify_token_outcome in Hrun.
    destruct Hrun as [(n & kb & t & _ & _ & -> & Hlt & Ht & _ & _ & ->)
                     |[(n & kb & t & _ & _ & -> & Hlt & Ht & _ & _ & ->)
                      |[Hr ->]]].
    + specialize (IH (accepted_at st t) Hrest). cbn in IH.
      specialize (IH ltac:(lia)). lia.
    + specialize (IH (assigned_at st t) Hrest). cbn in IH.
      specialize (IH ltac:(lia)). lia.
    + specialize (IH st Hrest Hlast).
      destruct r as [[|]|e]; [congruence| |]; simpl; lia.
Qed.

Lemma accepted_count_bound_witness :
  Z.of_nat (accepted_count
              [(mkEnv 0 ∅ offline, PyInt 1); (mkEnv 0 ∅ offline, PyInt 2);
               (mkEnv 0 ∅ offline, PyInt 3)]
              (fresh alice)) <= 0 - -1.
Proof.
  apply (accepted_count_bound _ (fresh alice) 0).
  - intros c [<-|[<-|[<-|[]]]]; simpl; lia.
  - simpl. lia.
Defined.

(** X23. The message is formatted before anything is delivered and the
    acknowledgment after: a token template that cannot be formatted makes
    [generate_challenge] raise with nothing logged or posted, while a
    challenge template that cannot be formatted makes it raise after a
    successful delivery, with the request already posted. *)
Theorem generate_challenge_formatting_order env st tok :
  current_token env st = (Ok tok, st) →
  (∀ template e,
     Settings.__getattr__ (django env) "OTP_TEXTLOCAL_TOKEN_TEMPLATE"
       = Ok template →
     str_format template tok = Raise e → e ≠ OutsideFragment →
     generate_challenge env st = (Raise e, st))
  ∧ (∀ template message nd api_key url sender r f ct e,
       Settings.__getattr__ (django env) "OTP_TEXTLOCAL_TOKEN_TEMPLATE"
         = Ok template →
       str_format template tok = Ok message →
       Settings.__getattr__ (django env) "OTP_TEXTLOCAL_NO_DELIVERY"
         = Ok nd →
       py_bool nd = false →
       delivery_configured env api_key url sender →
       network env (mkRequest url sender message (number (self st)) api_key)
         = Responded r →
       ¬ (400 <= status_code r < 600) →
       body r = Some (JObj f) → f !! "status" = Some (JStr "success") →
       Settings.__getattr__ (django env) "OTP_TEXTLOCAL_CHALLENGE_MESSAGE"
         = Ok ct →
       str_format ct tok = Raise e → e ≠ OutsideFragment →
       generate_challenge env st
       = (Raise e,
          mkState (self st) (db st) (log st)
            (outbox st
             ++ [mkRequest url sender message (number (self st)) api_key]))).
Proof.
  intros Htok. split.
  - intros template e Ht Hm _.
    rewrite (generate_challenge_with env st tok Htok). unfold challenge_with.
    rewrite (bind_ok _ _ _ _ _ (setting_eq _ _ _ _ Ht)).
    unfold bind, lift. rewrite Hm. reflexivity.
  - intros template message nd k u s r f ct e Ht Hm Hnd Hb Hc Hnet Hst Hbody
      Hf Hct Hack _.
    rewrite (generate_challenge_delivering env st tok nd template message
               Htok Ht Hm Hnd Hb).
    rewrite (deliver_token_configured env message st k u s Hc), Hnet.
    assert (Hok : raise_for_status r = Ok tt)
      by (apply raise_for_status_ok; lia).
    rewrite Hok. unfold response_json. rewrite Hbody.
    assert (Hrej : delivery_rejected (JObj f) = Ok false).
    { apply delivery_rejected_false. exists f. auto. }
    rewrite Hrej, Hct, Hack. reflexivity.
Qed.

Lemma generate_challenge_formatting_order_witness :
  let dj : gmap string pyval :=
    <[ "OTP_TEXTLOCAL_CHALLENGE_MESSAGE" := PyStr "Code {code} sent" ]>
      textlocal_settings in
  generate_challenge (mkEnv 1420099200 dj (answers 200 success_body))
                     (fresh alice)
  = (Raise (KeyError "code"),
     mkState alice {[ 1 := alice ]} []
       ([] ++ [mkRequest (PyStr "https://api.textlocal.in/send/")
                         (PyStr "TXTLCL") "924502" "test" (PyStr "k")])).
Proof.
  intros dj.
  assert (Htok : current_token (mkEnv 1420099200 dj (answers 200 success_body))
                               (fresh alice) = (Ok "924502", fresh alice))
    by (vm_compute; reflexivity).
  destruct (generate_challenge_formatting_order _ _ _ Htok) as [_ Hafter].
  apply (Hafter (PyStr "{token}") "924502" (PyBool false) (PyStr "k")
                (PyStr "https://api.textlocal.in/send/") (PyStr "TXTLCL")
                (mkResponse 200 (Some success_body))
                {[ "status" := JStr "success" ]}
                (PyStr "Code {code} sent") (KeyError "code"));
    try (vm_compute; reflexivity).
  - repeat split; vm_compute; reflexivity.
  - simpl. lia.
  - discriminate.
Defined.
